(** * use-window-orientation: the [useWindowOrientation] hook

    A shallow embedding of [src/index.ts].  The hook validates its
    [options] argument, keeps one piece of React state (the current
    orientation), and installs -- in a mount effect -- a debounced resize
    listener that recomputes the orientation from the window's inner width
    and height.

    Layout of the development:
    - JavaScript values as far as the hook inspects them ([typeof],
      destructuring with a default, strict comparison against a string
      literal, the string conversion of a template literal);
    - the collaborators the hook imports: the host window, lodash's
      [debounce], React's [useState] and [useEffect];
    - the hook itself, written in a small state-and-exception monad over
      the component instance, and the events that drive it;
    - the properties. *)

From Stdlib Require Import ZArith List String Ascii Bool Lia DecimalString.
Import ListNotations.

#[local] Set Warnings "-register-all".

Local Open Scope string_scope.
Local Open Scope Z_scope.

(** ** Text of the two error messages *)

(** The double quote character, U+0022. *)
Definition dquote : string := String (ascii_of_nat 34) EmptyString.

(** [src/index.ts] line 26. *)
Definition options_message : string :=
  "The options argument must be formatted as an object.".

(** [src/index.ts] line 35: the constant tail of the template literal. *)
Definition defaultOrientation_suffix : string :=
  " is not a valid defaultOrientation. Use " ++ dquote ++ "portrait" ++ dquote
  ++ " or " ++ dquote ++ "landscape" ++ dquote ++ ".".

(** Decimal rendering of an integer, as [BigInt.prototype.toString] gives
    it: ["0"], ["42"], ["-7"]. *)
Definition decimal (z : Z) : string := NilZero.string_of_int (Z.to_int z).

(** ** Thrown values *)

(** What the language runtime itself raises as a [TypeError].  ECMAScript
    fixes the class of these errors and leaves the message text to the
    implementation, so they are told apart by cause. *)
Inductive EngineFault : Type :=
| DestructureNullish    (* a destructuring pattern applied to null or undefined *)
| SymbolToString.       (* implicit string conversion of a Symbol *)

Inductive JsError : Type :=
| TypeError (message : string)        (* [new TypeError(message)], lines 26 and 32 *)
| EngineTypeError (fault : EngineFault)
| ReferenceError (name : string)      (* an identifier with no binding *)
| UserError (tag : nat).              (* thrown by code outside the hook *)

Inductive ErrorClass : Type := TypeErrorClass | ReferenceErrorClass | OtherClass.

Definition error_class (e : JsError) : ErrorClass :=
  match e with
  | TypeError _ | EngineTypeError _ => TypeErrorClass
  | ReferenceError _ => ReferenceErrorClass
  | UserError _ => OtherClass
  end.

(** The message, when the hook's own code wrote it. *)
Definition error_message (e : JsError) : option string :=
  match e with
  | TypeError m => Some m
  | _ => None
  end.

(** A completion record: normal with a value, or abrupt with the thrown
    error. *)
Inductive Completion (A : Type) : Type :=
| Normal (a : A)
| Throw (e : JsError).
Arguments Normal {A} a.
Arguments Throw {A} e.

(** ** The orientation and the hook's result *)

(** [type Orientation = "portrait" | "landscape"]. *)
Inductive Orientation : Type := Portrait | Landscape.

Definition Orientation_eqb (a b : Orientation) : bool :=
  match a, b with
  | Portrait, Portrait | Landscape, Landscape => true
  | _, _ => false
  end.

Definition Orientation_to_string (o : Orientation) : string :=
  match o with
  | Portrait => "portrait"
  | Landscape => "landscape"
  end.

(** [interface OrientationResults]. *)
Record OrientationResults : Type := mkResults {
  orientation : Orientation;
  portrait : bool;
  landscape : bool
}.

(** ** The host window *)

(** A registered "resize" listener: the hook's debounced handler, or some
    other party's callback. *)
Inductive Listener : Type :=
| HandleResize
| Foreign (id : nat).

Definition Listener_eqb (a b : Listener) : bool :=
  match a, b with
  | HandleResize, HandleResize => true
  | Foreign i, Foreign j => Nat.eqb i j
  | _, _ => false
  end.

(** Modelled from the spec: the host window object (section 6), a global
    that may be missing.  [innerWidth] and [innerHeight] are integers
    (CSSOM View declares them [long]). *)
Record Window : Type := mkWindow {
  innerWidth : Z;
  innerHeight : Z;
  resizeListeners : list Listener
}.

(** Modelled from the spec: [window.addEventListener("resize", l)]; a
    listener already present is not added twice. *)
Definition addEventListener (l : Listener) (w : Window) : Window :=
  if existsb (Listener_eqb l) (resizeListeners w) then w
  else mkWindow (innerWidth w) (innerHeight w) (resizeListeners w ++ [l]).

(** Modelled from the spec: [window.removeEventListener("resize", l)]. *)
Definition removeEventListener (l : Listener) (w : Window) : Window :=
  mkWindow (innerWidth w) (innerHeight w)
           (filter (fun l' => negb (Listener_eqb l l')) (resizeListeners w)).

Definition listening (w : option Window) : bool :=
  match w with
  | Some win => existsb (Listener_eqb HandleResize) (resizeListeners win)
  | None => false
  end.

(** ** lodash.debounce *)

(** The delay the hook passes, line 50. *)
Definition wait : Z := 400.

(** Modelled from the spec: the debounce utility (sections 4.1 and 6).
    The hook imports it from lodash.debounce, which is not part of the
    repository; the bookkeeping below is that of lodash's [debounce] for
    the options the hook passes ([leading] and [trailing] both true, no
    [maxWait]).  These are the closure variables of one debounced
    function: [lastArgs] records whether a call is waiting for the
    trailing edge, [timerId] is the pending timeout, named by the time it
    is due. *)
Record Debounced : Type := mkDebounced {
  lastArgs : bool;
  lastCallTime : option Z;
  lastInvokeTime : Z;
  timerId : option Z
}.

(** Modelled from the spec: [debounce(func, 400, {leading, trailing})],
    the fresh debounced function: no call yet, no timeout. *)
Definition debounce : Debounced := mkDebounced false None 0 None.

(** Modelled from the spec: whether [time] is an edge -- no call so far,
    or the last one [wait] or more ago (or a clock that ran backwards). *)
Definition shouldInvoke (d : Debounced) (time : Z) : bool :=
  match lastCallTime d with
  | None => true
  | Some c => (wait <=? time - c) || (time - c <? 0)
  end.

(** Modelled from the spec: what is left of the window after the last
    call.  Only reached with a recorded call; with none the delay is NaN,
    which [setTimeout] reads as 0. *)
Definition remainingWait (d : Debounced) (time : Z) : Z :=
  match lastCallTime d with
  | Some c => wait - (time - c)
  | None => 0
  end.

(** Each operation returns the new closure state and whether the wrapped
    function is invoked; the invocation is the last thing each of them
    does, so a throw of the wrapped function leaves the state returned
    here. *)

(** Modelled from the spec: the wrapped function is run; no call is
    waiting any more. *)
Definition invokeFunc (time : Z) (d : Debounced) : Debounced * bool :=
  (mkDebounced false (lastCallTime d) time (timerId d), true).

(** Modelled from the spec: the leading edge -- start the timeout, fire
    at once. *)
Definition leadingEdge (time : Z) (d : Debounced) : Debounced * bool :=
  invokeFunc time (mkDebounced (lastArgs d) (lastCallTime d) time (Some (time + wait))).

(** Modelled from the spec: the trailing edge -- the timeout is over;
    fire once more if a call arrived since the last run. *)
Definition trailingEdge (time : Z) (d : Debounced) : Debounced * bool :=
  if lastArgs d
  then invokeFunc time (mkDebounced (lastArgs d) (lastCallTime d) (lastInvokeTime d) None)
  else (mkDebounced false (lastCallTime d) (lastInvokeTime d) None, false).

(** Modelled from the spec: the timeout's callback, run at [time].  When
    the burst has not settled (the last call is less than [wait] old) the
    timeout is started again for the remainder. *)
Definition timerExpired (time : Z) (d : Debounced) : Debounced * bool :=
  if shouldInvoke d time then trailingEdge time d
  else (mkDebounced (lastArgs d) (lastCallTime d) (lastInvokeTime d)
                    (Some (time + remainingWait d time)), false).

(** Modelled from the spec: [.cancel()] clears the timeout and forgets
    the waiting call. *)
Definition cancel (d : Debounced) : Debounced := mkDebounced false None 0 None.

(** Modelled from the spec: a call of the debounced function at [time].
    The call is recorded; it is a leading edge when no timeout is pending
    and [time] is an edge; with no timeout pending otherwise, one is
    started. *)
Definition debounced (time : Z) (d : Debounced) : Debounced * bool :=
  let isInvoking := shouldInvoke d time in
  let d1 := mkDebounced true (Some time) (lastInvokeTime d) (timerId d) in
  match timerId d1 with
  | None =>
      if isInvoking then leadingEdge time d1
      else (mkDebounced (lastArgs d1) (lastCallTime d1) (lastInvokeTime d1)
                        (Some (time + wait)), false)
  | Some _ => (d1, false)
  end.

(** ** React: the component instance *)

(** Where the mount effect of the instance stands. *)
Inductive EffectStatus : Type :=
| NotScheduled   (* no render has completed yet *)
| Scheduled      (* the first render registered the effect; it has not run *)
| Active         (* the effect ran and returned its cleanup *)
| Failed         (* the effect threw *)
| Unmounted.     (* the instance was deactivated *)

(** Modelled from the spec: the reactive-value and activation-lifecycle
    primitives (section 6; React's [useState] and [useEffect], which are
    not part of the repository).  One instance holds the state cell, the
    status of its mount effect and the closure the effect created.
    [recomputeCalls] is a spy: it counts the runs of the callback wrapped
    by [debounce] and is read by nothing. *)
Record Component : Type := mkComponent {
  state : option Orientation;
  effectStatus : EffectStatus;
  handleResize : option Debounced;
  recomputeCalls : nat
}.

(** An instance before its first render. *)
Definition unrendered : Component := mkComponent None NotScheduled None 0.

(** The hook runs inside a render of the instance: it reads and writes
    the instance and may throw.  The instance is returned as it was at
    the point of the throw. *)
Definition Hook (A : Type) : Type := Component -> Component * Completion A.

Definition ret {A : Type} (a : A) : Hook A := fun c => (c, Normal a).

Definition throw {A : Type} (e : JsError) : Hook A := fun c => (c, Throw e).

Definition bind {A B : Type} (m : Hook A) (k : A -> Hook B) : Hook B :=
  fun c =>
    match m c with
    | (c', Normal a) => k a c'
    | (c', Throw e) => (c', Throw e)
    end.

(** A computation that touches no instance state. *)
Definition lift {A : Type} (r : Completion A) : Hook A := fun c => (c, r).

Notation "x <- m ;; k" := (bind m (fun x => k))
  (at level 61, m at next level, right associativity).
Notation "m ;;; k" := (bind m (fun _ => k))
  (at level 61, right associativity).

(** Modelled from the spec: [useState(initial)], the reactive value.  The
    first render creates the cell, later renders read it and ignore
    [initial]. *)
Definition useState (initial : Orientation) : Hook Orientation :=
  fun c =>
    match state c with
    | Some o => (c, Normal o)
    | None =>
        (mkComponent (Some initial) (effectStatus c) (handleResize c) (recomputeCalls c),
         Normal initial)
    end.

(** Modelled from the spec: [useEffect(effect, [])], the run-once
    activation effect.  It is registered by the first render and left
    alone by every later one. *)
Definition useEffect : Hook unit :=
  fun c =>
    match effectStatus c with
    | NotScheduled =>
        (mkComponent (state c) Scheduled (handleResize c) (recomputeCalls c), Normal tt)
    | _ => (c, Normal tt)
    end.

(** Modelled from the spec: the setter returned by [useState], the
    value-replace write.  React drops updates of an unmounted instance. *)
Definition setOrientation (o : Orientation) (c : Component) : Component :=
  match effectStatus c with
  | Unmounted => c
  | _ => mkComponent (Some o) (effectStatus c) (handleResize c) (recomputeCalls c)
  end.

(** ** The running system: the global scope and one instance *)

Record System : Type := mkSystem {
  window : option Window;
  component : Component
}.

Definition with_handleResize (d : option Debounced) (s : System) : System :=
  mkSystem (window s)
           (mkComponent (state (component s)) (effectStatus (component s)) d
                        (recomputeCalls (component s))).

Definition with_effectStatus (e : EffectStatus) (s : System) : System :=
  mkSystem (window s)
           (mkComponent (state (component s)) e (handleResize (component s))
                        (recomputeCalls (component s))).

Definition spied (c : Component) : Component :=
  mkComponent (state c) (effectStatus c) (handleResize c) (S (recomputeCalls c)).

(** Lines 43-49, the callback handed to [debounce].  Reading [window]
    where no such global exists throws a ReferenceError. *)
Definition recompute (s : System) : System * option JsError :=
  match window s with
  | None => (mkSystem None (spied (component s)), Some (ReferenceError "window"))
  | Some w =>
      if innerWidth w <=? innerHeight w
      then (mkSystem (Some w) (setOrientation Portrait (spied (component s))), None)
      else (mkSystem (Some w) (setOrientation Landscape (spied (component s))), None)
  end.

(** A call of [handleResize], the debounced callback, at time [t]. *)
Definition call_handleResize (t : Z) (s : System) : System * option JsError :=
  match handleResize (component s) with
  | None => (s, None)
  | Some d =>
      let (d', fire) := debounced t d in
      let s' := with_handleResize (Some d') s in
      if fire then recompute s' else (s', None)
  end.

(** Lines 41-60, the body of the effect, run at time [t]: make the
    debounced handler, call it once, subscribe it. *)
Definition effect (t : Z) (s : System) : System * option JsError :=
  match call_handleResize t (with_handleResize (Some debounce) s) with
  | (s1, Some e) => (with_effectStatus Failed s1, Some e)
  | (s1, None) =>
      match window s1 with
      | None => (with_effectStatus Failed s1, Some (ReferenceError "window"))
      | Some w =>
          (with_effectStatus Active
             (mkSystem (Some (addEventListener HandleResize w)) (component s1)), None)
      end
  end.

(** Lines 56-59, the function the effect returns. *)
Definition cleanup (s : System) : System * option JsError :=
  match window s with
  | None => (s, Some (ReferenceError "window"))
  | Some w =>
      (with_handleResize (option_map cancel (handleResize (component s)))
         (mkSystem (Some (removeEventListener HandleResize w)) (component s)), None)
  end.

(** What happens to a rendered instance; [t] is the time on the clock
    ([Date.now()]) when it happens. *)
Inductive Event : Type :=
| Commit (t : Z)          (* React runs the effects of the first render *)
| Resize (w h t : Z)      (* the window takes the size w by h and notifies *)
| TimerExpired (t : Z)    (* the event loop runs the pending timeout, if due *)
| Unmount.                (* React deactivates the instance *)

Definition step (s : System) (ev : Event) : System * option JsError :=
  match ev with
  | Commit t =>
      match effectStatus (component s) with
      | Scheduled => effect t s
      | _ => (s, None)
      end
  | Resize w h t =>
      match window s with
      | None => (s, None)
      | Some win =>
          let s' := mkSystem (Some (mkWindow w h (resizeListeners win))) (component s) in
          if listening (window s') then call_handleResize t s' else (s', None)
      end
  | TimerExpired t =>
      match handleResize (component s) with
      | None => (s, None)
      | Some d =>
          match timerId d with
          | None => (s, None)
          | Some due =>
              if due <=? t then
                let (d', fire) := timerExpired t d in
                let s' := with_handleResize (Some d') s in
                if fire then recompute s' else (s', None)
              else (s, None)
          end
      end
  | Unmount =>
      match effectStatus (component s) with
      | Active =>
          let (s', e) := cleanup s in (with_effectStatus Unmounted s', e)
      | _ => (with_effectStatus Unmounted s, None)
      end
  end.

(** A sequence of events, with the errors that escaped along the way. *)
Fixpoint run (s : System) (evs : list Event) : System * list JsError :=
  match evs with
  | [] => (s, [])
  | ev :: rest =>
      let (s1, e) := step s ev in
      let (s2, es) := run s1 rest in
      (s2, match e with Some x => x :: es | None => es end)
  end.

(** ** JavaScript values and the hook *)

Section Hook.

(** The Number type (IEEE 754 doubles) and [Number::toString] are left
    open: the hook does nothing with a number but print it. *)
Variable number : Type.
Variable Number_toString : number -> string.

(** A value, as far as the hook can tell values apart.  Of an object it
    sees whether it is callable, its data properties (accessors and
    proxies, which would run foreign code on a read, are left out), and
    what converting it to a string does (that conversion runs the
    object's own [toString] or [valueOf]). *)
Inductive JsValue : Type :=
| JsUndefined
| JsNull
| JsBoolean (b : bool)
| JsNumber (n : number)
| JsBigInt (z : Z)
| JsString (s : string)
| JsSymbol (description : option string)
| JsObject (callable : bool) (properties : list (string * JsValue))
           (conversion : Completion string).

(** The object literal [{}]. *)
Definition emptyObject : JsValue := JsObject false [] (Normal "[object Object]").

Definition typeof (v : JsValue) : string :=
  match v with
  | JsUndefined => "undefined"
  | JsNull => "object"
  | JsBoolean _ => "boolean"
  | JsNumber _ => "number"
  | JsBigInt _ => "bigint"
  | JsString _ => "string"
  | JsSymbol _ => "symbol"
  | JsObject callable _ _ => if callable then "function" else "object"
  end.

(** The conversion a template literal applies to a substitution. *)
Definition ToString (v : JsValue) : Completion string :=
  match v with
  | JsUndefined => Normal "undefined"
  | JsNull => Normal "null"
  | JsBoolean b => Normal (if b then "true" else "false")
  | JsNumber n => Normal (Number_toString n)
  | JsBigInt z => Normal (decimal z)
  | JsString s => Normal s
  | JsSymbol _ => Throw (EngineTypeError SymbolToString)
  | JsObject _ _ conversion => conversion
  end.

(** [v !== "s"] for a string literal. *)
Definition strictNotEqual (v : JsValue) (s : string) : bool :=
  match v with
  | JsString s' => negb (String.eqb s' s)
  | _ => true
  end.

(** Property read; a key that is not there reads as undefined. *)
Fixpoint Get (properties : list (string * JsValue)) (key : string) : JsValue :=
  match properties with
  | [] => JsUndefined
  | (k, v) :: rest => if String.eqb k key then v else Get rest key
  end.

(** Line 28, [const { defaultOrientation = "portrait" } = options]: null
    and undefined cannot be destructured; a primitive has no such
    property; the default replaces undefined and nothing else. *)
Definition destructure (options : JsValue) : Completion JsValue :=
  match options with
  | JsUndefined | JsNull => Throw (EngineTypeError DestructureNullish)
  | JsObject _ properties _ =>
      match Get properties "defaultOrientation" with
      | JsUndefined => Normal (JsString "portrait")
      | v => Normal v
      end
  | _ => Normal (JsString "portrait")
  end.

(** Line 23, [options: OrientationOptions = {}]: the value the parameter
    [options] is bound to.  An argument that is undefined, passed or left
    out, selects the default. *)
Definition options_parameter (arg : JsValue) : JsValue :=
  match arg with
  | JsUndefined => emptyObject
  | _ => arg
  end.

(** The static type [Orientation] of a value that passed line 30. *)
Definition narrow (v : JsValue) : Orientation :=
  if strictNotEqual v "portrait" then Landscape else Portrait.

(** Lines 22-67. *)
Definition useWindowOrientation (arg : JsValue) : Hook OrientationResults :=
  let options := options_parameter arg in
  if negb (String.eqb (typeof options) "object")
  then throw (TypeError options_message)
  else
    defaultOrientation <- lift (destructure options) ;;
    if strictNotEqual defaultOrientation "portrait"
       && strictNotEqual defaultOrientation "landscape"
    then
      let isString := String.eqb (typeof defaultOrientation) "string" in
      shown <- lift (ToString defaultOrientation) ;;
      throw (TypeError ((if isString then dquote else "") ++ shown
                        ++ (if isString then dquote else "")
                        ++ defaultOrientation_suffix))
    else
      orientation <- useState (narrow defaultOrientation) ;;
      useEffect ;;;
      ret (mkResults orientation
                     (Orientation_eqb orientation Portrait)
                     (Orientation_eqb orientation Landscape)).

(** A render of the instance of a running system. *)
Definition render (arg : JsValue) (s : System) : System * Completion OrientationResults :=
  let (c, r) := useWindowOrientation arg (component s) in
  (mkSystem (window s) c, r).

End Hook.

Arguments JsUndefined {number}.
Arguments JsNull {number}.
Arguments JsBoolean {number} b.
Arguments JsNumber {number} n.
Arguments JsBigInt {number} z.
Arguments JsString {number} s.
Arguments JsSymbol {number} description.
Arguments JsObject {number} callable properties conversion.
Arguments emptyObject {number}.
Arguments typeof {number} v.
Arguments strictNotEqual {number} v s.
Arguments Get {number} properties key.
Arguments destructure {number} options.
Arguments narrow {number} v.
Arguments options_parameter {number} arg.

(** ** Derived views used by the statements *)

Section Views.

Variable number : Type.
Variable Number_toString : number -> string.

(** An options object literal with the one recognised field. *)
Definition optionsWith (v : JsValue number) : JsValue number :=
  JsObject false [("defaultOrientation", v)] (Normal "[object Object]").

(** The message of line 33-35 for a value shown as [shown]. *)
Definition invalid_message (v : JsValue number) (shown : string) : string :=
  (if String.eqb (typeof v) "string" then dquote ++ shown ++ dquote else shown)
  ++ defaultOrientation_suffix.

(** Lines 25-37 on their own: the value of [defaultOrientation] the hook
    goes on with, or the error it throws. *)
Definition validation (arg : JsValue number) : Completion Orientation :=
  let options := options_parameter arg in
  if negb (String.eqb (typeof options) "object") then Throw (TypeError options_message)
  else
    match destructure options with
    | Throw e => Throw e
    | Normal d =>
        if strictNotEqual d "portrait" && strictNotEqual d "landscape"
        then match ToString number Number_toString d with
             | Throw e => Throw e
             | Normal shown => Throw (TypeError (invalid_message d shown))
             end
        else Normal (narrow d)
    end.

(** Lines 39-66 on their own, for a validated [defaultOrientation]. *)
Definition stateful_part (d : Orientation) : Hook OrientationResults :=
  orientation <- useState d ;;
  useEffect ;;;
  ret (mkResults orientation
                 (Orientation_eqb orientation Portrait)
                 (Orientation_eqb orientation Landscape)).

End Views.

Arguments optionsWith {number} v.
Arguments invalid_message {number} v shown.

(** Events that are not the run of the mount effect. *)
Definition not_commit (ev : Event) : bool :=
  match ev with
  | Commit _ => false
  | _ => true
  end.

(** The events at which the wrapped callback ran, read off the spy. *)
Fixpoint invocations (s : System) (evs : list Event) : list Event :=
  match evs with
  | [] => []
  | ev :: rest =>
      let s1 := fst (step s ev) in
      (if (recomputeCalls (component s) <? recomputeCalls (component s1))%nat
       then [ev] else [])
      ++ invocations s1 rest
  end.

(** The events that follow the first notification of a burst that starts
    at [t1]: further notifications inside the debounce window and expiries
    of the timeout, in the order of their times, none before [now]. *)
Fixpoint burst_tail (t1 now : Z) (evs : list Event) : bool :=
  match evs with
  | [] => true
  | Resize _ _ t :: rest => (now <=? t) && (t <? t1 + wait) && burst_tail t1 t rest
  | TimerExpired t :: rest => (now <=? t) && burst_tail t1 t rest
  | _ => false
  end.

(** Every notification among [evs] lies at least [wait] before [time]. *)
Definition settled (time : Z) (evs : list Event) : bool :=
  forallb (fun ev => match ev with
                     | Resize _ _ t => t + wait <=? time
                     | _ => true
                     end) evs.

(** No timeout pending and the last call, if any, at least [wait] ago:
    the next call is a leading edge. *)
Definition idle (d : Debounced) (time : Z) : bool :=
  match timerId d with
  | None => shouldInvoke d time
  | Some _ => false
  end.

(** The handler is subscribed and its closure exists. *)
Definition mounted (s : System) : Prop :=
  listening (window s) = true /\ handleResize (component s) <> None.

(** The state the cleanup leaves: nothing subscribed, nothing pending. *)
Definition torn_down (s : System) : Prop :=
  effectStatus (component s) = Unmounted
  /\ listening (window s) = false
  /\ forall d, handleResize (component s) = Some d ->
               timerId d = None /\ lastArgs d = false.

(** What holds of a system with a window from the run of the effect on. *)
Definition activated (s : System) : Prop :=
  window s <> None /\ (effectStatus (component s) = Active \/ torn_down s).

(** What follows a first notification at time 1000 in a burst of ten:
    nine more notifications one time unit apart, then the expiry of the
    timeout at 1400 and that of its restart at 1409. *)
Definition ten_rapid : list Event :=
  map (fun k => Resize 500 1000 (1001 + Z.of_nat k)) (seq 0 9)
  ++ [TimerExpired 1400; TimerExpired 1409].

(** A browser window of 1000 by 500 with no listener yet. *)
Definition wide_window : Window := mkWindow 1000 500 [].

(** An instance after a first render with the default options. *)
Definition rendered : Component := mkComponent (Some Portrait) Scheduled None 0.

(** The instance in that window, its effect run at time 0 and the
    timeout of the effect's own call expired at time 400. *)
Definition quiet_system : System :=
  fst (run (mkSystem (Some wide_window) rendered) [Commit 0; TimerExpired 400]).

(** The handler of [quiet_system]. *)
Definition quiet_handler : Debounced := mkDebounced false (Some 0) 0 None.

(** The same instance 100 time units after its effect ran: the timeout
    of the effect's own call is still pending. *)
Definition busy_system : System :=
  fst (run (mkSystem (Some wide_window) rendered) [Commit 0]).

Definition busy_handler : Debounced := mkDebounced false (Some 0) 0 (Some 400).

(** Options whose [defaultOrientation] is a Symbol, with integers
    standing for the numbers. *)
Definition symbol_options : JsValue Z := optionsWith (JsSymbol None).

(** The times between two calls are measured forwards: the last call is
    not after [now], and with no timeout pending it lies [wait] or more
    back and no call is waiting. *)
Definition well_timed (now : Z) (d : Debounced) : Prop :=
  match lastCallTime d with
  | Some c => c <= now /\ (timerId d = None -> c + wait <= now /\ lastArgs d = false)
  | None => True
  end.

(** ** Notions for the behaviour over time *)

(** The orientation lines 44-48 assign for a width and a height. *)
Definition measure (w h : Z) : Orientation :=
  if w <=? h then Portrait else Landscape.

(** The state holds the orientation of the window as it is now. *)
Definition in_sync (s : System) : bool :=
  match window s, state (component s) with
  | Some win, Some o => Orientation_eqb o (measure (innerWidth win) (innerHeight win))
  | _, _ => false
  end.

(** A timeout of the handler is pending. *)
Definition pending (s : System) : bool :=
  match handleResize (component s) with
  | Some d => match timerId d with Some _ => true | None => false end
  | None => false
  end.

(** A timeout is pending and a call waits for its trailing edge. *)
Definition waiting (s : System) : bool :=
  match handleResize (component s) with
  | Some d => match timerId d with Some _ => lastArgs d | None => false end
  | None => false
  end.

Definition not_unmount (ev : Event) : bool :=
  match ev with
  | Unmount => false
  | _ => true
  end.

(** The events carry times that never go back, starting from [now]. *)
Fixpoint chronological (now : Z) (evs : list Event) : bool :=
  match evs with
  | [] => true
  | Commit t :: rest | Resize _ _ t :: rest | TimerExpired t :: rest =>
      (now <=? t) && chronological t rest
  | Unmount :: rest => chronological now rest
  end.

(** The time of the last event of a history that began at [now]. *)
Fixpoint end_time (now : Z) (evs : list Event) : Z :=
  match evs with
  | [] => now
  | Commit t :: rest | Resize _ _ t :: rest | TimerExpired t :: rest => end_time t rest
  | Unmount :: rest => end_time now rest
  end.

(** The time of the last call of the handler: that of the last
    notification, or [t0], the time of the effect's own call, when there
    was none. *)
Fixpoint last_call (t0 : Z) (evs : list Event) : Z :=
  match evs with
  | [] => t0
  | Resize _ _ t :: rest => last_call t rest
  | _ :: rest => last_call t0 rest
  end.

(** The handler's clock readings are consistent with a last call at [c]
    and the present time [now]: a pending timeout is due no later than
    [wait] after that call, and with none pending the call lies [wait] or
    more back. *)
Definition timed (c now : Z) (d : Debounced) : Prop :=
  lastCallTime d = Some c
  /\ c <= now
  /\ match timerId d with
     | Some due => due <= c + wait
     | None => c + wait <= now
     end.

(** The effect has run, the handler is subscribed, and the state either
    shows the window as it is or a trailing call is on its way. *)
Definition following (s : System) : Prop :=
  effectStatus (component s) = Active
  /\ listening (window s) = true
  /\ handleResize (component s) <> None
  /\ (in_sync s = true \/ waiting s = true).

(** The listeners of the window, none where there is no window. *)
Definition listeners (s : System) : list Listener :=
  match window s with
  | Some win => resizeListeners win
  | None => []
  end.

(** The orientation the hook accepts its argument with, if it does:
    the parameter must be an object that is not callable, and its
    [defaultOrientation] missing, undefined or one of the two strings. *)
Definition accepted {number : Type} (arg : JsValue number) : option Orientation :=
  match options_parameter arg with
  | JsObject false properties _ =>
      match Get properties "defaultOrientation" with
      | JsUndefined => Some Portrait
      | JsString s =>
          if String.eqb s "portrait" then Some Portrait
          else if String.eqb s "landscape" then Some Landscape
          else None
      | _ => None
      end
  | _ => None
  end.

(** A window with two listeners of other parties. *)
Definition shared_window : Window := mkWindow 1000 500 [Foreign 1; Foreign 2].

(** ** Properties *)

Section Properties.

Variable number : Type.
Variable Number_toString : number -> string.

Local Abbreviation hook := (useWindowOrientation number Number_toString).
Local Abbreviation value := (JsValue number).

Lemma append_assoc (a b c : string) : ((a ++ b) ++ c)%string = (a ++ b ++ c)%string.
Proof. induction a as [|x a IH]; cbn; [reflexivity | now rewrite IH]. Qed.

Lemma stateful_part_normal (d : Orientation) (c : Component) :
  exists c' r, stateful_part d c = (c', Normal r)
               /\ orientation r = match state c with Some o => o | None => d end
               /\ portrait r = Orientation_eqb (orientation r) Portrait
               /\ landscape r = Orientation_eqb (orientation r) Landscape
               /\ state c' = Some (orientation r)
               /\ handleResize c' = handleResize c
               /\ recomputeCalls c' = recomputeCalls c.
Proof.
  unfold stateful_part, bind, useState, useEffect, ret.
  destruct (state c) as [o|] eqn:Hs; destruct (effectStatus c) eqn:He; cbn;
    rewrite ?Hs, ?He; cbn; eexists; eexists; repeat split; cbn; auto.
Qed.

(** The hook is its validation followed by its stateful part. *)
Lemma useWindowOrientation_split (arg : value) (c : Component) :
  hook arg c =
  match validation number Number_toString arg with
  | Throw e => (c, Throw e)
  | Normal d => stateful_part d c
  end.
Proof.
  unfold useWindowOrientation, validation, stateful_part.
  destruct (negb _); [reflexivity|].
  unfold bind at 1, lift at 1.
  destruct (destructure _) as [d|e]; [|reflexivity].
  destruct (strictNotEqual d "portrait" && strictNotEqual d "landscape"); [|reflexivity].
  unfold bind, lift, throw, invalid_message.
  destruct (ToString number Number_toString d) as [shown|e]; [|reflexivity].
  destruct (String.eqb (typeof d) "string"); [|reflexivity].
  now rewrite !append_assoc.
Qed.

Lemma strictNotEqual_false (v : value) (s : string) :
  strictNotEqual v s = false <-> v = JsString s.
Proof.
  destruct v; cbn; try (split; [discriminate | intros H; discriminate H]).
  rewrite negb_false_iff, String.eqb_eq. split; [now intros -> | now intros [= ->]].
Qed.

Lemma strictNotEqual_true (v : value) (s : string) :
  strictNotEqual v s = true <-> v <> JsString s.
Proof.
  rewrite <- strictNotEqual_false. destruct (strictNotEqual v s); split; congruence.
Qed.

(** C1.  The callback of the debounced handler, run where the window has
    inner width [w] and inner height [h], raises nothing and calls
    [setOrientation] with portrait when [w <= h] (a tie included) and with
    landscape when [w > h]; on an instance that is not unmounted the
    state then holds exactly that value. *)
Theorem recompute_compares_width_and_height
    (w h : Z) (listeners : list Listener) (c : Component) :
  snd (recompute (mkSystem (Some (mkWindow w h listeners)) c)) = None
  /\ (w <= h ->
      component (fst (recompute (mkSystem (Some (mkWindow w h listeners)) c)))
      = setOrientation Portrait (spied c))
  /\ (w > h ->
      component (fst (recompute (mkSystem (Some (mkWindow w h listeners)) c)))
      = setOrientation Landscape (spied c))
  /\ (effectStatus c <> Unmounted ->
      (w <= h ->
       state (component (fst (recompute (mkSystem (Some (mkWindow w h listeners)) c))))
       = Some Portrait)
      /\ (w > h ->
          state (component (fst (recompute (mkSystem (Some (mkWindow w h listeners)) c))))
          = Some Landscape)).
Proof.
  assert (Hlive : forall o, effectStatus c <> Unmounted ->
                            state (setOrientation o (spied c)) = Some o).
  { intros o Hm. unfold setOrientation; cbn.
    destruct (effectStatus c); cbn; congruence. }
  unfold recompute; cbn.
  destruct (Z.leb_spec w h) as [Hle|Hgt]; cbn.
  - split; [reflexivity|]. split; [reflexivity|]. split; [lia|].
    intros Hm. split; [intros _; now apply Hlive | lia].
  - split; [reflexivity|]. split; [lia|]. split; [reflexivity|].
    intros Hm. split; [lia | intros _; now apply Hlive].
Qed.

(** C2.  In every result the hook returns, [portrait] is true exactly
    when [orientation] is portrait, [landscape] is true exactly when
    [orientation] is landscape, and the two flags always differ. *)
Theorem results_flags_follow_orientation
    (arg : value) (c c' : Component) (r : OrientationResults) :
  hook arg c = (c', Normal r) ->
  portrait r = Orientation_eqb (orientation r) Portrait
  /\ landscape r = Orientation_eqb (orientation r) Landscape
  /\ (portrait r = true <-> orientation r = Portrait)
  /\ (landscape r = true <-> orientation r = Landscape)
  /\ portrait r = negb (landscape r).
Proof.
  rewrite useWindowOrientation_split.
  destruct (validation number Number_toString arg) as [d|e]; [|discriminate].
  destruct (stateful_part_normal d c) as (c1 & r1 & Heq & _ & Hp & Hl & _).
  rewrite Heq. intros [= <- <-]. rewrite Hp, Hl.
  destruct (orientation r1); cbn; repeat split; congruence.
Qed.

(** The echo of lines 31-36.  When the [defaultOrientation] field of the
    options object holds a value other than undefined that is neither the
    string portrait nor the string landscape, and that value converts to
    the string [shown], the hook throws a TypeError whose message is
    [shown] -- between double quotes exactly when the value is of type
    string -- followed by the fixed text of line 35, and the instance is
    left as it was. *)
Theorem invalid_defaultOrientation_is_echoed
    (properties : list (string * value)) (conversion : Completion string)
    (v : value) (shown : string) (c : Component) :
  Get properties "defaultOrientation" = v ->
  v <> JsUndefined ->
  v <> JsString "portrait" ->
  v <> JsString "landscape" ->
  ToString number Number_toString v = Normal shown ->
  hook (JsObject false properties conversion) c
  = (c, Throw (TypeError
                 ((if String.eqb (typeof v) "string"
                   then dquote ++ shown ++ dquote else shown)
                  ++ defaultOrientation_suffix))).
Proof.
  intros Hget Hu Hp Hl Hshown.
  rewrite useWindowOrientation_split. unfold validation; cbn.
  rewrite Hget.
  apply strictNotEqual_true in Hp. apply strictNotEqual_true in Hl.
  destruct v; try congruence; cbn in *; rewrite ?Hp, ?Hl; cbn;
    try (injection Hshown as <-); try reflexivity.
  - discriminate.
  - rewrite Hshown. reflexivity.
Qed.

(** The check of lines 25-27.  Whenever the [typeof] of the value bound
    to the parameter [options] is not object, the hook throws a TypeError
    with the message of line 26 and leaves the instance as it was.  (An
    undefined argument never gets that far: it is replaced by the default
    [{}].  Null does not meet the condition: its [typeof] is object.) *)
Theorem non_object_options_rejected (arg : value) (c : Component) :
  typeof (options_parameter arg) <> "object" ->
  hook arg c = (c, Throw (TypeError options_message))
  /\ error_class (TypeError options_message) = TypeErrorClass
  /\ error_message (TypeError options_message)
     = Some "The options argument must be formatted as an object.".
Proof.
  intros Ht. split; [|split; reflexivity].
  rewrite useWindowOrientation_split. unfold validation.
  destruct (String.eqb_spec (typeof (options_parameter arg)) "object") as [He|_];
    [congruence | reflexivity].
Qed.

(** C6.  On the first render of an instance -- whatever the window, also
    with none, and before any resize -- the hook returns the orientation
    named by a valid [defaultOrientation]; when the field is missing
    from the options object, or the argument is left out so that the
    default [{}] applies, it returns portrait. *)
Theorem initial_orientation_is_default (w : option Window) :
  (forall (d : Orientation) properties conversion,
      Get properties "defaultOrientation" = JsString (Orientation_to_string d) ->
      snd (render number Number_toString (JsObject false properties conversion)
                  (mkSystem w unrendered))
      = Normal (mkResults d (Orientation_eqb d Portrait) (Orientation_eqb d Landscape)))
  /\ (forall properties conversion,
      Get properties "defaultOrientation" = JsUndefined ->
      snd (render number Number_toString (JsObject false properties conversion)
                  (mkSystem w unrendered))
      = Normal (mkResults Portrait true false))
  /\ snd (render number Number_toString emptyObject (mkSystem w unrendered))
     = Normal (mkResults Portrait true false)
  /\ snd (render number Number_toString JsUndefined (mkSystem w unrendered))
     = Normal (mkResults Portrait true false).
Proof.
  unfold render. repeat split.
  - intros d properties conversion Hget.
    rewrite useWindowOrientation_split. unfold validation; cbn. rewrite Hget.
    destruct d; reflexivity.
  - intros properties conversion Hget.
    rewrite useWindowOrientation_split. unfold validation; cbn. rewrite Hget.
    reflexivity.
Qed.

(** C9.  When the validation of lines 25-37 fails, the render throws
    that error and the system is exactly what it was before the call: for
    an instance not yet activated there is no state cell, no debounced
    handler and so no timeout, the window's listeners are untouched, and
    no effect is waiting to be run. *)
Theorem validation_error_leaves_no_trace (arg : value) (s : System) (e : JsError) :
  validation number Number_toString arg = Throw e ->
  render number Number_toString arg s = (s, Throw e)
  /\ (component s = unrendered ->
      forall s', s' = fst (render number Number_toString arg s) ->
      state (component s') = None
      /\ handleResize (component s') = None
      /\ window s' = window s
      /\ forall t, step s' (Commit t) = (s', None)).
Proof.
  intros Hv.
  assert (Hr : render number Number_toString arg s = (s, Throw e)).
  { unfold render. rewrite useWindowOrientation_split, Hv. now destruct s. }
  split; [exact Hr|].
  intros Hc s' ->. rewrite Hr; cbn. rewrite Hc; cbn. auto.
Qed.

(** C10.  [typeof null] is object, so null passes the check of line 25;
    the destructuring of line 28 then fails with a TypeError raised by
    the language runtime, which is not the error of line 26 and does not
    carry its message. *)
Theorem null_options_fail_in_destructuring (c : Component) :
  typeof (@JsNull number) = "object"
  /\ hook JsNull c = (c, Throw (EngineTypeError DestructureNullish))
  /\ error_class (EngineTypeError DestructureNullish) = TypeErrorClass
  /\ error_message (EngineTypeError DestructureNullish) <> Some options_message
  /\ snd (hook JsNull c) <> Throw (TypeError options_message).
Proof.
  repeat split; cbn; discriminate.
Qed.

(** *** Frame facts about the callback and the events *)

Lemma setOrientation_frame (o : Orientation) (c : Component) :
  effectStatus (setOrientation o c) = effectStatus c
  /\ handleResize (setOrientation o c) = handleResize c
  /\ recomputeCalls (setOrientation o c) = recomputeCalls c.
Proof. unfold setOrientation. destruct (effectStatus c) eqn:E; cbn; auto. Qed.

(** With a window the callback raises nothing, counts one run, and leaves
    the window, the closure and the effect status alone. *)
Lemma recompute_frame (s : System) (win : Window) :
  window s = Some win ->
  exists s', recompute s = (s', None)
             /\ window s' = Some win
             /\ effectStatus (component s') = effectStatus (component s)
             /\ handleResize (component s') = handleResize (component s)
             /\ recomputeCalls (component s') = S (recomputeCalls (component s)).
Proof.
  intros Hw. unfold recompute. rewrite Hw.
  destruct (innerWidth win <=? innerHeight win); eexists; (split; [reflexivity|]); cbn;
    (split; [reflexivity|]);
    match goal with
    | |- context [setOrientation ?o ?c] =>
        destruct (setOrientation_frame o c) as (-> & -> & ->)
    end; cbn; auto.
Qed.

(** What the debounced machinery does to the system once it has decided
    whether to fire. *)
Lemma fire_frame (s : System) (win : Window) (d' : Debounced) (fire : bool) :
  window s = Some win ->
  exists s', (if fire then recompute (with_handleResize (Some d') s)
              else (with_handleResize (Some d') s, None)) = (s', None)
             /\ window s' = Some win
             /\ effectStatus (component s') = effectStatus (component s)
             /\ handleResize (component s') = Some d'
             /\ recomputeCalls (component s')
                = (if fire then S (recomputeCalls (component s))
                   else recomputeCalls (component s))
             /\ (fire = false -> state (component s') = state (component s)).
Proof.
  intros Hw. destruct fire.
  - destruct (recompute_frame (with_handleResize (Some d') s) win Hw)
      as (s' & Hr & Hw' & He & Hh & Hc).
    exists s'. cbn in *. repeat split; auto. discriminate.
  - eexists; split; [reflexivity|]. cbn. repeat split; auto.
Qed.

Lemma listening_resized (w h : Z) (win : Window) :
  listening (Some (mkWindow w h (resizeListeners win))) = listening (Some win).
Proof. reflexivity. Qed.

Lemma listening_removed (win : Window) :
  listening (Some (removeEventListener HandleResize win)) = false.
Proof.
  unfold listening, removeEventListener; cbn.
  induction (resizeListeners win) as [|l ls IH]; cbn; [reflexivity|].
  destruct l; cbn; [exact IH|]. exact IH.
Qed.

Lemma listening_added (win : Window) :
  listening (Some (addEventListener HandleResize win)) = true.
Proof.
  unfold listening, addEventListener.
  destruct (existsb (Listener_eqb HandleResize) (resizeListeners win)) eqn:E; [exact E|].
  cbn. rewrite existsb_app; cbn. now rewrite orb_true_r.
Qed.

Lemma run_cons (s : System) (ev : Event) (rest : list Event) :
  fst (run s (ev :: rest)) = fst (run (fst (step s ev)) rest)
  /\ snd (run s (ev :: rest))
     = match snd (step s ev) with
       | Some x => x :: snd (run (fst (step s ev)) rest)
       | None => snd (run (fst (step s ev)) rest)
       end.
Proof.
  cbn [run]. destruct (step s ev) as [s1 e]. cbn [fst snd].
  destruct (run s1 rest) as [s2 es]. cbn [fst snd]. now destruct e.
Qed.

Lemma run_app (evs1 evs2 : list Event) (s : System) :
  fst (run s (evs1 ++ evs2)) = fst (run (fst (run s evs1)) evs2)
  /\ snd (run s (evs1 ++ evs2))
     = (snd (run s evs1) ++ snd (run (fst (run s evs1)) evs2))%list.
Proof.
  revert s. induction evs1 as [|ev evs1 IH]; intros s; [now cbn|].
  rewrite <- app_comm_cons.
  destruct (run_cons s ev (evs1 ++ evs2)) as [-> ->].
  destruct (run_cons s ev evs1) as [-> ->].
  destruct (IH (fst (step s ev))) as [-> ->].
  split; [reflexivity|]. now destruct (snd (step s ev)).
Qed.

(** *** After the cleanup nothing reaches the instance *)

Lemma step_torn_down (s : System) (ev : Event) :
  window s <> None -> torn_down s ->
  exists s', step s ev = (s', None)
             /\ window s' <> None /\ torn_down s'
             /\ state (component s') = state (component s)
             /\ recomputeCalls (component s') = recomputeCalls (component s).
Proof.
  intros Hw Ht. pose proof Ht as (Hu & Hl & Hd).
  assert (Ew : exists win, window s = Some win)
    by (destruct (window s) as [win|]; [now exists win | congruence]).
  destruct Ew as [win Ew].
  destruct ev as [t|w h t|t|]; cbn [step].
  - rewrite Hu. exists s. auto.
  - rewrite Ew in Hl |- *. cbn [window]. rewrite listening_resized, Hl.
    eexists; split; [reflexivity|]. cbn [window component].
    split; [discriminate|]. split; [|split; reflexivity].
    split; [exact Hu|]. split; [|exact Hd].
    cbn [window]. now rewrite listening_resized.
  - destruct (handleResize (component s)) as [d|] eqn:Ed.
    + destruct (Hd d eq_refl) as [-> _]. exists s. auto.
    + exists s. auto.
  - rewrite Hu. eexists; split; [reflexivity|]. cbn.
    split; [exact Hw|]. split; [|split; reflexivity].
    split; [reflexivity|]. split; [exact Hl | exact Hd].
Qed.

Lemma run_torn_down (evs : list Event) (s : System) :
  window s <> None -> torn_down s ->
  snd (run s evs) = []
  /\ torn_down (fst (run s evs))
  /\ state (component (fst (run s evs))) = state (component s)
  /\ recomputeCalls (component (fst (run s evs))) = recomputeCalls (component s).
Proof.
  revert s. induction evs as [|ev evs IH]; intros s Hw Ht; [now cbn|].
  destruct (step_torn_down s ev Hw Ht) as (s' & Hs & Hw' & Ht' & Hst & Hrc).
  destruct (run_cons s ev evs) as [-> ->]. rewrite Hs; cbn [fst snd].
  destruct (IH s' Hw' Ht') as (He & Ht'' & Hst' & Hrc').
  split; [exact He|]. split; [exact Ht''|]. split; congruence.
Qed.

(** With a window the effect succeeds and subscribes the handler. *)
Lemma effect_with_window (t : Z) (s : System) (win : Window) :
  window s = Some win ->
  exists s', effect t s = (s', None)
             /\ effectStatus (component s') = Active
             /\ mounted s'.
Proof.
  intros Hw. unfold effect, call_handleResize. cbn [with_handleResize component handleResize].
  destruct (debounced t debounce) as [d' fire].
  destruct (fire_frame (with_handleResize (Some debounce) s) win d' fire Hw)
    as (s1 & Hr & Hw1 & _ & Hh1 & _).
  cbn [with_handleResize] in Hr. cbn [with_handleResize component handleResize].
  cbn in Hr. rewrite Hr, Hw1.
  eexists; split; [reflexivity|]. split; [reflexivity|].
  split; cbn; [apply listening_added | congruence].
Qed.

Lemma step_activated (s : System) (ev : Event) :
  activated s -> exists s', step s ev = (s', None) /\ activated s'.
Proof.
  intros (Hw & [Ha|Ht]).
  2:{ destruct (step_torn_down s ev Hw Ht) as (s' & Hs & Hw' & Ht' & _).
      exists s'. split; [exact Hs|]. split; [exact Hw' | now right]. }
  destruct (window s) as [win|] eqn:Ew; [clear Hw | congruence].
  destruct ev as [t|w h t|t|]; cbn [step].
  - rewrite Ha. exists s. split; [reflexivity|]. split; [congruence | now left].
  - rewrite Ew.
    destruct (listening (window _)); [|eexists; split; [reflexivity|]; split; cbn; [congruence | now left]].
    unfold call_handleResize. cbn [component].
    destruct (handleResize (component s)) as [d|];
      [|eexists; split; [reflexivity|]; split; cbn; [congruence | now left]].
    destruct (debounced t d) as [d' fire].
    destruct (fire_frame (mkSystem (Some (mkWindow w h (resizeListeners win))) (component s))
                         _ d' fire eq_refl) as (s' & Hr & Hw' & He & _).
    exists s'. split; [exact Hr|]. split; [congruence | left; cbn in He; congruence].
  - destruct (handleResize (component s)) as [d|];
      [|exists s; split; [reflexivity|]; split; [congruence | now left]].
    destruct (timerId d) as [due|];
      [|exists s; split; [reflexivity|]; split; [congruence | now left]].
    destruct (due <=? t);
      [|exists s; split; [reflexivity|]; split; [congruence | now left]].
    destruct (timerExpired t d) as [d' fire].
    destruct (fire_frame s win d' fire Ew) as (s' & Hr & Hw' & He & _).
    exists s'. split; [exact Hr|]. split; [congruence | left; congruence].
  - rewrite Ha. unfold cleanup. rewrite Ew. cbn.
    eexists; split; [reflexivity|]. split; cbn; [congruence|]. right.
    split; [reflexivity|]. split; [apply listening_removed|].
    cbn. destruct (handleResize (component s)); cbn; [|discriminate].
    intros d0 [= <-]. now cbn.
Qed.

Lemma run_activated (evs : list Event) (s : System) :
  activated s -> snd (run s evs) = [] /\ activated (fst (run s evs)).
Proof.
  revert s. induction evs as [|ev evs IH]; intros s Ha; [now cbn|].
  destruct (step_activated s ev Ha) as (s' & Hs & Ha').
  destruct (run_cons s ev evs) as [-> ->]. rewrite Hs; cbn [fst snd]. now apply IH.
Qed.

Lemma unmount_activated (s : System) :
  activated s ->
  exists s', step s Unmount = (s', None) /\ window s' <> None /\ torn_down s'.
Proof.
  intros (Hw & [Ha|Ht]).
  - destruct (window s) as [win|] eqn:Ew; [clear Hw | congruence].
    cbn [step]. rewrite Ha. unfold cleanup. rewrite Ew. cbn.
    eexists; split; [reflexivity|]. split; cbn; [congruence|].
    split; [reflexivity|]. split; [apply listening_removed|].
    cbn. destruct (handleResize (component s)); cbn; [|discriminate].
    intros d0 [= <-]. now cbn.
  - destruct (step_torn_down s Unmount Hw Ht) as (s' & Hs & Hw' & Ht' & _).
    now exists s'.
Qed.

(** C8.  For an instance rendered where there is a window: after the
    effect has run and any events have followed, deactivation raises
    nothing, leaves the handler unsubscribed and no timeout or waiting
    call behind, and from then on no sequence of events -- resize
    notifications included -- raises an error, changes the orientation or
    runs the callback. *)
Theorem deactivation_cleans_up
    (win : Window) (c : Component) (t : Z) (evs after : list Event) :
  effectStatus c = Scheduled ->
  snd (run (mkSystem (Some win) c) (Commit t :: evs ++ [Unmount])) = []
  /\ listening (window (fst (run (mkSystem (Some win) c) (Commit t :: evs ++ [Unmount]))))
     = false
  /\ (forall d,
         handleResize (component (fst (run (mkSystem (Some win) c)
                                           (Commit t :: evs ++ [Unmount])))) = Some d ->
         timerId d = None /\ lastArgs d = false)
  /\ snd (run (fst (run (mkSystem (Some win) c) (Commit t :: evs ++ [Unmount]))) after) = []
  /\ state (component (fst (run (fst (run (mkSystem (Some win) c)
                                          (Commit t :: evs ++ [Unmount]))) after)))
     = state (component (fst (run (mkSystem (Some win) c) (Commit t :: evs ++ [Unmount]))))
  /\ recomputeCalls (component (fst (run (fst (run (mkSystem (Some win) c)
                                                   (Commit t :: evs ++ [Unmount]))) after)))
     = recomputeCalls (component (fst (run (mkSystem (Some win) c)
                                           (Commit t :: evs ++ [Unmount])))).
Proof.
  intros Hs.
  set (s0 := mkSystem (Some win) c).
  destruct (run_cons s0 (Commit t) (evs ++ [Unmount])) as [-> ->].
  assert (Hstep : exists s1, step s0 (Commit t) = (s1, None) /\ activated s1).
  { cbn [step]. subst s0; cbn [component]. rewrite Hs.
    destruct (effect_with_window t (mkSystem (Some win) c) win eq_refl)
      as (s1 & He & Ha & (Hl & _)).
    exists s1. split; [exact He|]. split; [|now left].
    destruct (window s1); [discriminate | cbn in Hl; discriminate]. }
  destruct Hstep as (s1 & -> & Ha1). cbn [fst snd].
  destruct (run_app evs [Unmount] s1) as [-> ->].
  destruct (run_activated evs s1 Ha1) as (-> & Ha2).
  set (s2 := fst (run s1 evs)) in *.
  destruct (unmount_activated s2 Ha2) as (s3 & Hu & Hw3 & Ht3).
  destruct (run_cons s2 Unmount []) as [-> ->]. rewrite Hu. cbn [fst snd run app].
  destruct (run_torn_down after s3 Hw3 Ht3) as (He & _ & Hst & Hrc).
  destruct Ht3 as (_ & Hl & Hd).
  repeat split; auto; apply Hd; assumption.
Qed.

(** *** Without a window and without the effect *)

Lemma step_dormant (d : Orientation) (s : System) (ev : Event) :
  not_commit ev = true ->
  window s = None -> handleResize (component s) = None ->
  state (component s) = Some d -> effectStatus (component s) <> Active ->
  exists s', step s ev = (s', None)
             /\ window s' = None /\ handleResize (component s') = None
             /\ state (component s') = Some d /\ effectStatus (component s') <> Active.
Proof.
  intros Hev Hw Hh Hst Hne.
  destruct ev as [t|w h t|t|]; cbn [step]; [discriminate Hev | | |].
  - rewrite Hw. exists s. auto.
  - rewrite Hh. exists s. auto.
  - destruct (effectStatus (component s)) eqn:E; try congruence;
      (eexists; split; [reflexivity|]; cbn; repeat split; auto; discriminate).
Qed.

Lemma run_dormant (d : Orientation) (evs : list Event) (s : System) :
  forallb not_commit evs = true ->
  window s = None -> handleResize (component s) = None ->
  state (component s) = Some d -> effectStatus (component s) <> Active ->
  snd (run s evs) = [] /\ state (component (fst (run s evs))) = Some d.
Proof.
  revert s. induction evs as [|ev evs IH]; intros s Hall Hw Hh Hst Hne; [now cbn|].
  cbn [forallb] in Hall. apply andb_true_iff in Hall as [Hev Hall].
  destruct (step_dormant d s ev Hev Hw Hh Hst Hne) as (s' & Hs & Hw' & Hh' & Hst' & Hne').
  destruct (run_cons s ev evs) as [-> ->]. rewrite Hs; cbn [fst snd]. now apply IH.
Qed.

(** C5, as amended.  For valid options naming the orientation [d], where
    no window exists: the render does not throw and returns [d], and for
    as long as the mount effect has not been run -- whatever else happens
    to the instance -- nothing is raised, the state stays [d] and a
    further render returns [d] again. *)
Theorem default_kept_while_effect_not_run
    (arg : value) (d : Orientation) (evs : list Event) :
  validation number Number_toString arg = Normal d ->
  forallb not_commit evs = true ->
  snd (render number Number_toString arg (mkSystem None unrendered))
  = Normal (mkResults d (Orientation_eqb d Portrait) (Orientation_eqb d Landscape))
  /\ snd (run (fst (render number Number_toString arg (mkSystem None unrendered))) evs) = []
  /\ state (component
              (fst (run (fst (render number Number_toString arg (mkSystem None unrendered)))
                        evs)))
     = Some d
  /\ snd (render number Number_toString arg
                 (fst (run (fst (render number Number_toString arg
                                        (mkSystem None unrendered))) evs)))
     = Normal (mkResults d (Orientation_eqb d Portrait) (Orientation_eqb d Landscape)).
Proof.
  intros Hv Hall.
  assert (Hr : render number Number_toString arg (mkSystem None unrendered)
               = (mkSystem None (mkComponent (Some d) Scheduled None 0),
                  Normal (mkResults d (Orientation_eqb d Portrait)
                                    (Orientation_eqb d Landscape)))).
  { unfold render. rewrite useWindowOrientation_split, Hv. reflexivity. }
  rewrite Hr; cbn [fst snd]. split; [reflexivity|].
  destruct (run_dormant d evs (mkSystem None (mkComponent (Some d) Scheduled None 0)) Hall)
    as (He & Hst); cbn; auto; try discriminate.
  split; [exact He|]. split; [exact Hst|].
  unfold render. rewrite useWindowOrientation_split, Hv.
  destruct (stateful_part_normal d (component (fst (run (mkSystem None (mkComponent (Some d) Scheduled None 0)) evs))))
    as (c' & r & Heq & Ho & Hp & Hl & _).
  rewrite Heq; cbn [snd]. rewrite Hst in Ho.
  destruct r as [o p l]; cbn in *. now subst.
Qed.

(** *** The debounced handler under a burst *)

Lemma debounced_pending (t due : Z) (d : Debounced) :
  timerId d = Some due ->
  debounced t d = (mkDebounced true (Some t) (lastInvokeTime d) (Some due), false).
Proof. unfold debounced; cbn. now intros ->. Qed.

Lemma debounced_not_pending (t : Z) (d : Debounced) :
  timerId d = None ->
  debounced t d
  = if shouldInvoke d t
    then (mkDebounced false (Some t) t (Some (t + wait)), true)
    else (mkDebounced true (Some t) (lastInvokeTime d) (Some (t + wait)), false).
Proof. unfold debounced; cbn. intros ->. now destruct (shouldInvoke d t). Qed.

Lemma recompute_counts (s : System) :
  recomputeCalls (component (fst (recompute s))) = S (recomputeCalls (component s)).
Proof.
  unfold recompute. destruct (window s) as [win|]; [|reflexivity].
  destruct (innerWidth win <=? innerHeight win); cbn;
    match goal with
    | |- context [setOrientation ?o ?c] =>
        destruct (setOrientation_frame o c) as (_ & _ & ->)
    end; reflexivity.
Qed.

(** A notification that reaches a subscribed handler. *)
Lemma step_resize_mounted (s : System) (d : Debounced) (w h t : Z) :
  listening (window s) = true -> handleResize (component s) = Some d ->
  exists s', step s (Resize w h t) = (s', None)
             /\ listening (window s') = true
             /\ handleResize (component s') = Some (fst (debounced t d))
             /\ recomputeCalls (component s')
                = if snd (debounced t d) then S (recomputeCalls (component s))
                  else recomputeCalls (component s).
Proof.
  intros Hl Hd. cbn [step].
  destruct (window s) as [win|] eqn:Ew; [|discriminate Hl].
  cbn [window]. rewrite listening_resized, Hl.
  unfold call_handleResize. cbn [component]. rewrite Hd.
  destruct (debounced t d) as [d' fire]. cbn [fst snd].
  destruct (fire_frame (mkSystem (Some (mkWindow w h (resizeListeners win))) (component s))
                       _ d' fire eq_refl) as (s' & Hr & Hw' & _ & Hh' & Hc & _).
  exists s'. split; [exact Hr|]. rewrite Hw', listening_resized. auto.
Qed.

(** An expiry of the timeout of a subscribed handler. *)
Lemma step_timer_mounted (s : System) (d : Debounced) (t due : Z) :
  listening (window s) = true -> handleResize (component s) = Some d ->
  timerId d = Some due -> due <= t ->
  exists s', step s (TimerExpired t) = (s', None)
             /\ listening (window s') = true
             /\ handleResize (component s') = Some (fst (timerExpired t d))
             /\ recomputeCalls (component s')
                = if snd (timerExpired t d) then S (recomputeCalls (component s))
                  else recomputeCalls (component s).
Proof.
  intros Hl Hd Hdue Hle. cbn [step]. rewrite Hd, Hdue.
  apply Z.leb_le in Hle. rewrite Hle.
  destruct (window s) as [win|] eqn:Ew; [|discriminate Hl].
  destruct (timerExpired t d) as [d' fire]. cbn [fst snd].
  destruct (fire_frame s win d' fire Ew) as (s' & Hr & Hw' & _ & Hh' & Hc & _).
  exists s'. split; [exact Hr|]. rewrite Hw'. auto.
Qed.

Lemma step_timer_early (s : System) (d : Debounced) (t : Z) :
  handleResize (component s) = Some d ->
  match timerId d with Some due => t < due | None => True end ->
  step s (TimerExpired t) = (s, None).
Proof.
  intros Hd Hdue. cbn [step]. rewrite Hd.
  destruct (timerId d) as [due|]; [|reflexivity].
  apply Z.leb_gt in Hdue. now rewrite Hdue.
Qed.

Lemma invocations_cons (s : System) (ev : Event) (rest : list Event) :
  invocations s (ev :: rest)
  = ((if (recomputeCalls (component s) <? recomputeCalls (component (fst (step s ev))))%nat
      then [ev] else [])
     ++ invocations (fst (step s ev)) rest)%list.
Proof. reflexivity. Qed.

(** Once the timeout has fired after the window of the burst, the rest
    of the burst holds no notification and nothing runs. *)
Lemma tail_after_settling (t1 : Z) (rest : list Event) :
  forall (s : System) (d : Debounced) (now : Z),
    handleResize (component s) = Some d -> timerId d = None ->
    t1 + wait <= now -> burst_tail t1 now rest = true ->
    invocations s rest = [] /\ forall time, settled time rest = true.
Proof.
  induction rest as [|ev rest IH]; intros s d now Hd Ht Hnow Hb; [now cbn|].
  destruct ev as [t|w h t|t|]; cbn [burst_tail] in Hb; try discriminate.
  - apply andb_true_iff in Hb as [Hb _]. apply andb_true_iff in Hb as [H1 H2].
    apply Z.leb_le in H1. apply Z.ltb_lt in H2. lia.
  - apply andb_true_iff in Hb as [H1 Hb]. apply Z.leb_le in H1.
    rewrite invocations_cons.
    rewrite (step_timer_early s d t Hd) by now rewrite Ht.
    cbn [fst]. rewrite Nat.ltb_irrefl. cbn [app settled forallb].
    apply (IH s d t Hd Ht); [lia | exact Hb].
Qed.

(** While the timeout is pending, no notification of the burst runs the
    callback; it runs at most once, at an expiry that comes [wait] or
    more after every notification. *)
Lemma tail_while_pending (t1 : Z) (rest : list Event) :
  forall (s : System) (d : Debounced) (c now : Z),
    listening (window s) = true -> handleResize (component s) = Some d ->
    lastCallTime d = Some c -> t1 <= c -> c <= now -> timerId d <> None ->
    burst_tail t1 now rest = true ->
    invocations s rest = []
    \/ exists time, invocations s rest = [TimerExpired time]
                    /\ c + wait <= time /\ settled time rest = true.
Proof.
  induction rest as [|ev rest IH]; intros s d c now Hl Hd Hc Ht1 Hnow Hp Hb;
    [now left|].
  destruct (timerId d) as [due|] eqn:Edue; [clear Hp | congruence].
  destruct ev as [t|w h t|t|]; cbn [burst_tail] in Hb; try discriminate.
  - (* a further notification *)
    apply andb_true_iff in Hb as [Hb Hrest]. apply andb_true_iff in Hb as [H1 H2].
    apply Z.leb_le in H1. apply Z.ltb_lt in H2.
    destruct (step_resize_mounted s d w h t Hl Hd) as (s' & Hs & Hl' & Hd' & Hrc).
    rewrite (debounced_pending t due d Edue) in Hd', Hrc. cbn [fst snd] in Hd', Hrc.
    rewrite invocations_cons, Hs. cbn [fst]. rewrite Hrc, Nat.ltb_irrefl. cbn [app].
    destruct (IH s' _ t t Hl' Hd' eq_refl) as [Hnone | (time & Hone & Hle & Hset)];
      cbn; try lia; try discriminate; try exact Hrest.
    + now left.
    + right. exists time. split; [exact Hone|]. split; [lia|].
      cbn [settled forallb]. apply andb_true_iff. split; [now apply Z.leb_le | exact Hset].
  - (* an expiry of the timeout *)
    apply andb_true_iff in Hb as [H1 Hrest]. apply Z.leb_le in H1.
    rewrite invocations_cons.
    destruct (Z.le_gt_cases due t) as [Hdue | Hearly].
    2:{ rewrite (step_timer_early s d t Hd) by (rewrite Edue; lia).
        cbn [fst]. rewrite Nat.ltb_irrefl. cbn [app].
        destruct (IH s d c t Hl Hd Hc Ht1) as [Hnone | (time & Hone & Hle & Hset)];
          try lia; try congruence; try exact Hrest.
        - now left.
        - right. exists time. auto. }
    destruct (step_timer_mounted s d t due Hl Hd Edue Hdue) as (s' & Hs & Hl' & Hd' & Hrc).
    rewrite Hs. cbn [fst].
    unfold timerExpired, shouldInvoke, trailingEdge, invokeFunc in Hd', Hrc.
    rewrite Hc in Hd', Hrc.
    assert (Hneg : (t - c <? 0) = false) by (apply Z.ltb_ge; lia).
    rewrite Hneg, orb_false_r in Hd', Hrc.
    destruct (Z.leb_spec wait (t - c)) as [Hfire | Hwait].
    + destruct (lastArgs d); cbn [fst snd] in Hd', Hrc; rewrite Hrc.
      * (* the trailing edge *)
        assert (Hlt : (recomputeCalls (component s) <? S (recomputeCalls (component s)))%nat
                      = true) by (apply Nat.ltb_lt; lia).
        rewrite Hlt.
        destruct (tail_after_settling t1 rest s' _ t Hd' eq_refl) as [-> Hset];
          [lia | exact Hrest |].
        right. exists t. split; [reflexivity|]. split; [lia|]. apply Hset.
      * rewrite Nat.ltb_irrefl.
        destruct (tail_after_settling t1 rest s' _ t Hd' eq_refl) as [-> _];
          [lia | exact Hrest |].
        now left.
    + (* too early: the timeout is restarted *)
      cbn [fst snd] in Hd', Hrc. rewrite Hrc, Nat.ltb_irrefl. cbn [app].
      destruct (IH s' _ c t Hl' Hd' eq_refl Ht1) as [Hnone | (time & Hone & Hle & Hset)];
        cbn; try lia; try discriminate; try exact Hrest.
      * now left.
      * right. exists time. auto.
Qed.

Lemma fire_counts (s : System) (d' : Debounced) (fire : bool) :
  recomputeCalls
    (component (fst (if fire then recompute (with_handleResize (Some d') s)
                     else (with_handleResize (Some d') s, None))))
  = if fire then S (recomputeCalls (component s)) else recomputeCalls (component s).
Proof. destruct fire; [now rewrite recompute_counts | reflexivity]. Qed.

(** One event runs the callback at most once. *)
Lemma step_counts (s : System) (ev : Event) :
  recomputeCalls (component (fst (step s ev))) = recomputeCalls (component s)
  \/ recomputeCalls (component (fst (step s ev))) = S (recomputeCalls (component s)).
Proof.
  assert (Hcall : forall t s0,
             recomputeCalls (component (fst (call_handleResize t s0)))
             = recomputeCalls (component s0)
             \/ recomputeCalls (component (fst (call_handleResize t s0)))
                = S (recomputeCalls (component s0))).
  { intros t s0. unfold call_handleResize.
    destruct (handleResize (component s0)) as [d|]; [|now left].
    destruct (debounced t d) as [d' fire]. rewrite fire_counts.
    destruct fire; auto. }
  destruct ev as [t|w h t|t|]; cbn [step].
  - destruct (effectStatus (component s)); auto.
    unfold effect.
    specialize (Hcall t (with_handleResize (Some debounce) s)).
    destruct (call_handleResize t (with_handleResize (Some debounce) s)) as [s1 [e|]];
      [exact Hcall|].
    destruct (window s1); exact Hcall.
  - destruct (window s) as [win|]; auto.
    destruct (listening _); [|now left].
    apply (Hcall t (mkSystem (Some (mkWindow w h (resizeListeners win))) (component s))).
  - destruct (handleResize (component s)) as [d|]; auto.
    destruct (timerId d) as [due|]; auto.
    destruct (due <=? t); auto.
    destruct (timerExpired t d) as [d' fire]. rewrite fire_counts. destruct fire; auto.
  - destruct (effectStatus (component s)); auto.
    unfold cleanup. destruct (window s); auto.
Qed.

(** The spy moves by one for each listed invocation. *)
Lemma run_counts (evs : list Event) (s : System) :
  recomputeCalls (component (fst (run s evs)))
  = (recomputeCalls (component s) + List.length (invocations s evs))%nat.
Proof.
  revert s. induction evs as [|ev evs IH]; intros s; [cbn; lia|].
  destruct (run_cons s ev evs) as [-> _]. rewrite IH, invocations_cons, List.length_app.
  destruct (step_counts s ev) as [-> | ->].
  - rewrite Nat.ltb_irrefl. cbn. lia.
  - assert (Hlt : (recomputeCalls (component s) <? S (recomputeCalls (component s)))%nat
                  = true) by (apply Nat.ltb_lt; lia).
    rewrite Hlt. cbn. lia.
Qed.

(** C7, as amended.  A burst of resize notifications inside one debounce
    window of 400 time units, reaching a subscribed handler, with the
    expiries of its timeout interleaved in any way that respects the
    order of time: the callback runs at the first notification exactly
    when the handler is idle there (the leading edge), at no later
    notification, and at most once more, at an expiry that comes 400
    units or more after every notification of the burst (the trailing
    edge) -- at most twice in all. *)
Theorem burst_invokes_at_most_twice
    (s : System) (d : Debounced) (w1 h1 t1 : Z) (rest : list Event) :
  listening (window s) = true ->
  handleResize (component s) = Some d ->
  burst_tail t1 t1 rest = true ->
  exists trail,
    invocations s (Resize w1 h1 t1 :: rest)
    = ((if idle d t1 then [Resize w1 h1 t1] else []) ++ trail)%list
    /\ (trail = []
        \/ exists time, trail = [TimerExpired time]
                        /\ settled time (Resize w1 h1 t1 :: rest) = true)
    /\ (List.length (invocations s (Resize w1 h1 t1 :: rest)) <= 2)%nat
    /\ (recomputeCalls (component (fst (run s (Resize w1 h1 t1 :: rest))))
        <= recomputeCalls (component s) + 2)%nat.
Proof.
  intros Hl Hd Hb.
  assert (Hshape : exists trail,
             invocations s (Resize w1 h1 t1 :: rest)
             = ((if idle d t1 then [Resize w1 h1 t1] else []) ++ trail)%list
             /\ (trail = []
                 \/ exists time, trail = [TimerExpired time]
                                 /\ settled time (Resize w1 h1 t1 :: rest) = true)).
  { destruct (step_resize_mounted s d w1 h1 t1 Hl Hd) as (s' & Hs & Hl' & Hd' & Hrc).
    rewrite invocations_cons, Hs. cbn [fst].
    assert (Htail : forall d', handleResize (component s') = Some d' ->
                               lastCallTime d' = Some t1 -> timerId d' <> None ->
                               invocations s' rest = []
                               \/ exists time, invocations s' rest = [TimerExpired time]
                                               /\ settled time (Resize w1 h1 t1 :: rest) = true).
    { intros d0 Hd0 Hc0 Hp0.
      destruct (tail_while_pending t1 rest s' d0 t1 t1 Hl' Hd0 Hc0) as
        [Hnone | (time & Hone & Hle & Hset)]; try lia; auto.
      right. exists time. split; [exact Hone|].
      cbn [settled forallb]. apply andb_true_iff. split; [now apply Z.leb_le | exact Hset]. }
    unfold idle.
    destruct (timerId d) as [due|] eqn:Edue.
    - rewrite (debounced_pending t1 due d Edue) in Hd', Hrc. cbn [fst snd] in Hd', Hrc.
      rewrite Hrc, Nat.ltb_irrefl.
      exists (invocations s' rest). split; [reflexivity|].
      apply (Htail _ Hd'); cbn; congruence.
    - rewrite (debounced_not_pending t1 d Edue) in Hd', Hrc.
      destruct (shouldInvoke d t1); cbn [fst snd] in Hd', Hrc; rewrite Hrc.
      + assert (Hlt : (recomputeCalls (component s) <? S (recomputeCalls (component s)))%nat
                      = true) by (apply Nat.ltb_lt; lia).
        rewrite Hlt.
        exists (invocations s' rest). split; [reflexivity|].
        apply (Htail _ Hd'); cbn; congruence.
      + rewrite Nat.ltb_irrefl.
        exists (invocations s' rest). split; [reflexivity|].
        apply (Htail _ Hd'); cbn; congruence. }
  destruct Hshape as (trail & Hinv & Htrail).
  assert (Hlen : (List.length (invocations s (Resize w1 h1 t1 :: rest)) <= 2)%nat).
  { rewrite Hinv, List.length_app.
    destruct Htrail as [-> | (time & -> & _)]; destruct (idle d t1); cbn; lia. }
  exists trail. split; [exact Hinv|]. split; [exact Htrail|]. split; [exact Hlen|].
  rewrite run_counts. lia.
Qed.

(** *** A handler with no timeout pending is idle *)

Lemma well_timed_debounce (now : Z) : well_timed now debounce.
Proof. exact I. Qed.

Lemma well_timed_cancel (now : Z) (d : Debounced) : well_timed now (cancel d).
Proof. exact I. Qed.

Lemma well_timed_debounced (now t : Z) (d : Debounced) :
  now <= t -> well_timed t (fst (debounced t d)).
Proof.
  intros _. unfold debounced, well_timed; cbn.
  destruct (timerId d); cbn; [split; [lia | discriminate]|].
  destruct (shouldInvoke d t); cbn; (split; [lia | discriminate]).
Qed.

Lemma well_timed_timerExpired (now t : Z) (d : Debounced) :
  well_timed now d -> now <= t -> well_timed t (fst (timerExpired t d)).
Proof.
  unfold well_timed, timerExpired, shouldInvoke, trailingEdge, invokeFunc.
  intros Hwt Hle.
  destruct (lastCallTime d) as [c|] eqn:Ec.
  - destruct Hwt as [Hc Hidle].
    assert (Hneg : (t - c <? 0) = false) by (apply Z.ltb_ge; lia).
    rewrite Hneg, orb_false_r.
    destruct (Z.leb_spec wait (t - c)).
    + destruct (lastArgs d); cbn; (split; [lia|]); intros _; (split; [lia | reflexivity]).
    + cbn. split; [lia | discriminate].
  - destruct (lastArgs d); cbn; exact I.
Qed.

Lemma well_timed_idle (now t : Z) (d : Debounced) :
  well_timed now d -> now <= t -> timerId d = None -> idle d t = true.
Proof.
  unfold well_timed, idle, shouldInvoke. intros Hwt Hle Hn. rewrite Hn.
  destruct (lastCallTime d) as [c|]; [|reflexivity].
  destruct Hwt as [_ Hidle]. destruct (Hidle Hn) as [Hc _].
  apply orb_true_iff. left. apply Z.leb_le. lia.
Qed.

End Properties.

(** ** The statements at concrete inputs

    Here the numbers are the integers, printed in decimal: that is how
    [Number::toString] prints an integer below 2^53 in magnitude. *)

Example decimal_samples : decimal 0 = "0" /\ decimal 42 = "42" /\ decimal (-7) = "-7".
Proof. repeat split. Qed.

(** The second example of section 8 of the specification: a string
    value is echoed between double quotes. *)
Example sideways_is_quoted :
  useWindowOrientation Z decimal (optionsWith (JsString "sideways")) unrendered
  = (unrendered,
     Throw (TypeError (dquote ++ "sideways" ++ dquote ++ defaultOrientation_suffix))).
Proof. reflexivity. Qed.

(** A resize to 500 by 1000 followed by the wait yields portrait, one to
    1000 by 500 yields landscape. *)
Example resize_then_wait :
  state (component (fst (run quiet_system
                             [Resize 1000 500 1000; Resize 500 1000 1100;
                              TimerExpired 1400; TimerExpired 1500])))
  = Some Portrait
  /\ state (component (fst (run quiet_system
                                [Resize 500 1000 1000; Resize 1000 500 1100;
                                 TimerExpired 1400; TimerExpired 1500])))
     = Some Landscape.
Proof. split; reflexivity. Qed.

(** Ten rapid notifications: the callback runs at the first one and at
    the expiry after the last one. *)
Example ten_rapid_invocations :
  invocations quiet_system (Resize 500 1000 1000 :: ten_rapid)
  = [Resize 500 1000 1000; TimerExpired 1409].
Proof. reflexivity. Qed.

(** C7, as stated, fails: the effect itself calls the handler (line 53),
    and a burst that begins while the timeout of that call is pending has
    no leading edge; the callback does not run at its first
    notification. *)
Lemma burst_after_mount_has_no_leading_edge :
  busy_system = fst (step (mkSystem (Some wide_window) rendered) (Commit 0))
  /\ listening (window busy_system) = true
  /\ handleResize (component busy_system) = Some busy_handler
  /\ burst_tail 100 100 [Resize 500 1000 110; TimerExpired 400; TimerExpired 510] = true
  /\ invocations busy_system
       [Resize 500 1000 100; Resize 500 1000 110; TimerExpired 400; TimerExpired 510]
     = [TimerExpired 510]
  /\ recomputeCalls (component (fst (step busy_system (Resize 500 1000 100))))
     = recomputeCalls (component busy_system).
Proof. repeat split. Qed.

Lemma recompute_compares_width_and_height_witness :
  (700 <= 700
   /\ effectStatus (mkComponent (Some Landscape) Active (Some debounce) 0) <> Unmounted)
  /\ state (component (fst (recompute
                              (mkSystem (Some (mkWindow 700 700 []))
                                        (mkComponent (Some Landscape) Active
                                                     (Some debounce) 0)))))
     = Some Portrait.
Proof.
  split; [split; [lia | discriminate]|].
  apply (recompute_compares_width_and_height 700 700 []
           (mkComponent (Some Landscape) Active (Some debounce) 0));
    [discriminate | lia].
Defined.

Lemma results_flags_follow_orientation_witness :
  useWindowOrientation Z decimal JsUndefined unrendered
  = (rendered, Normal (mkResults Portrait true false))
  /\ portrait (mkResults Portrait true false)
     = negb (landscape (mkResults Portrait true false)).
Proof.
  split; [reflexivity|].
  apply (results_flags_follow_orientation Z decimal JsUndefined unrendered rendered
           (mkResults Portrait true false) eq_refl).
Defined.

(** C3.  The code misses the claim at a Symbol: the field
    [defaultOrientation] is present and is neither of the two strings,
    yet the hook does not throw an error whose message echoes the value.
    The template literal of line 33 cannot convert a Symbol, so what
    comes out is the runtime's conversion error, with no message of the
    hook's own. *)
Lemma symbol_defaultOrientation_not_echoed :
  Get [("defaultOrientation", @JsSymbol Z None)] "defaultOrientation" = JsSymbol None
  /\ @JsSymbol Z None <> JsUndefined
  /\ @JsSymbol Z None <> JsString "portrait"
  /\ @JsSymbol Z None <> JsString "landscape"
  /\ snd (useWindowOrientation Z decimal symbol_options unrendered)
     = Throw (EngineTypeError SymbolToString)
  /\ forall message : string,
       snd (useWindowOrientation Z decimal symbol_options unrendered)
       <> Throw (TypeError message).
Proof.
  repeat split; discriminate.
Qed.

Lemma invalid_defaultOrientation_is_echoed_witness :
  (Get [("defaultOrientation", @JsNumber Z 42)] "defaultOrientation" = JsNumber 42
   /\ @JsNumber Z 42 <> JsUndefined
   /\ @JsNumber Z 42 <> JsString "portrait"
   /\ @JsNumber Z 42 <> JsString "landscape"
   /\ ToString Z decimal (JsNumber 42) = Normal "42")
  /\ useWindowOrientation Z decimal (optionsWith (JsNumber 42)) unrendered
     = (unrendered, Throw (TypeError ("42" ++ defaultOrientation_suffix))).
Proof.
  split; [repeat split; discriminate|].
  apply (invalid_defaultOrientation_is_echoed Z decimal
           [("defaultOrientation", JsNumber 42)] (Normal "[object Object]")
           (JsNumber 42) "42" unrendered eq_refl);
    [discriminate | discriminate | discriminate | reflexivity].
Defined.

Lemma non_object_options_rejected_witness :
  typeof (options_parameter (@JsString Z "foo")) <> "object"
  /\ useWindowOrientation Z decimal (JsString "foo") unrendered
     = (unrendered, Throw (TypeError options_message)).
Proof.
  split; [discriminate|].
  apply (non_object_options_rejected Z decimal (JsString "foo") unrendered).
  discriminate.
Defined.

(** C4.  The code misses the claim at null: null is no object, but its
    [typeof] is object, so the check of line 25 lets it through and the
    hook does not throw the error of line 26; the destructuring of line
    28 throws the runtime's error instead. *)
Lemma null_options_escape_the_object_check :
  typeof (options_parameter (@JsNull Z)) = "object"
  /\ useWindowOrientation Z decimal JsNull unrendered
     = (unrendered, Throw (EngineTypeError DestructureNullish))
  /\ snd (useWindowOrientation Z decimal JsNull unrendered)
     <> Throw (TypeError options_message)
  /\ error_message (EngineTypeError DestructureNullish) <> Some options_message.
Proof. repeat split; discriminate. Qed.

(** C5, as stated, fails: after a valid render where no window exists,
    the run of the mount effect throws a ReferenceError. *)
Lemma effect_without_window_throws :
  render Z decimal JsUndefined (mkSystem None unrendered)
  = (mkSystem None rendered, Normal (mkResults Portrait true false))
  /\ snd (step (mkSystem None rendered) (Commit 0)) = Some (ReferenceError "window").
Proof. split; reflexivity. Qed.

Lemma default_kept_while_effect_not_run_witness :
  (validation Z decimal (optionsWith (JsString "landscape")) = Normal Landscape
   /\ forallb not_commit [Resize 500 1000 10; TimerExpired 500; Unmount] = true)
  /\ state (component
              (fst (run (fst (render Z decimal (optionsWith (JsString "landscape"))
                                     (mkSystem None unrendered)))
                        [Resize 500 1000 10; TimerExpired 500; Unmount])))
     = Some Landscape.
Proof.
  split; [split; reflexivity|].
  apply (default_kept_while_effect_not_run Z decimal (optionsWith (JsString "landscape"))
           Landscape [Resize 500 1000 10; TimerExpired 500; Unmount] eq_refl eq_refl).
Defined.

Lemma initial_orientation_is_default_witness :
  Get [("defaultOrientation", @JsString Z "landscape")] "defaultOrientation"
  = JsString (Orientation_to_string Landscape)
  /\ snd (render Z decimal (optionsWith (JsString "landscape")) (mkSystem None unrendered))
     = Normal (mkResults Landscape false true).
Proof.
  split; [reflexivity|].
  apply (initial_orientation_is_default Z decimal None). reflexivity.
Defined.

Lemma burst_invokes_at_most_twice_witness :
  (listening (window quiet_system) = true
   /\ handleResize (component quiet_system) = Some quiet_handler
   /\ burst_tail 1000 1000 ten_rapid = true)
  /\ (recomputeCalls (component (fst (run quiet_system (Resize 500 1000 1000 :: ten_rapid))))
      <= recomputeCalls (component quiet_system) + 2)%nat.
Proof.
  split; [repeat split|].
  destruct (burst_invokes_at_most_twice quiet_system quiet_handler 500 1000 1000 ten_rapid
              eq_refl eq_refl eq_refl) as (trail & _ & _ & _ & Hcount).
  exact Hcount.
Defined.

Lemma deactivation_cleans_up_witness :
  effectStatus rendered = Scheduled
  /\ state (component
              (fst (run (fst (run (mkSystem (Some wide_window) rendered)
                                  (Commit 0 :: [Resize 500 1000 100; Resize 500 1000 110]
                                            ++ [Unmount])))
                        [TimerExpired 510; Resize 1000 500 600; TimerExpired 1000])))
     = state (component
                (fst (run (mkSystem (Some wide_window) rendered)
                          (Commit 0 :: [Resize 500 1000 100; Resize 500 1000 110]
                                    ++ [Unmount])))).
Proof.
  split; [reflexivity|].
  apply (deactivation_cleans_up wide_window rendered 0
           [Resize 500 1000 100; Resize 500 1000 110]
           [TimerExpired 510; Resize 1000 500 600; TimerExpired 1000] eq_refl).
Defined.

Lemma validation_error_leaves_no_trace_witness :
  validation Z decimal (JsString "foo") = Throw (TypeError options_message)
  /\ render Z decimal (JsString "foo") (mkSystem (Some wide_window) unrendered)
     = (mkSystem (Some wide_window) unrendered, Throw (TypeError options_message)).
Proof.
  split; [reflexivity|].
  apply (validation_error_leaves_no_trace Z decimal (JsString "foo")
           (mkSystem (Some wide_window) unrendered) (TypeError options_message) eq_refl).
Defined.

(** ** Further properties of the hook *)

Section Renders.

Variable number : Type.
Variable Number_toString : number -> string.

Local Abbreviation hook := (useWindowOrientation number Number_toString).
Local Abbreviation value := (JsValue number).

(** The validation succeeds exactly on the accepted arguments. *)
Lemma validation_accepted (arg : value) :
  match accepted arg with
  | Some d => validation number Number_toString arg = Normal d
  | None => exists e, validation number Number_toString arg = Throw e
  end.
Proof.
  assert (Hobj : forall properties conversion,
             match accepted (JsObject false properties conversion) with
             | Some d => validation number Number_toString
                                    (JsObject false properties conversion) = Normal d
             | None => exists e, validation number Number_toString
                                            (JsObject false properties conversion) = Throw e
             end).
  { intros properties conversion. unfold accepted, validation; cbn.
    destruct (Get properties "defaultOrientation") as [| |b|n|z|str|sym|callable ps conv];
      cbn; try (eexists; reflexivity); try reflexivity.
    - destruct (String.eqb_spec str "portrait") as [->|Hp]; [reflexivity|].
      destruct (String.eqb_spec str "landscape") as [->|Hl]; [reflexivity|].
      cbn. eexists; reflexivity.
    - destruct conv; eexists; reflexivity. }
  destruct arg as [| |b|n|z|str|sym|callable properties conversion].
  - exact (Hobj [] (Normal "[object Object]")).
  - cbn. eexists; reflexivity.
  - cbn. eexists; reflexivity.
  - cbn. eexists; reflexivity.
  - cbn. eexists; reflexivity.
  - cbn. eexists; reflexivity.
  - cbn. eexists; reflexivity.
  - destruct callable; [cbn; eexists; reflexivity | apply Hobj].
Qed.

(** X1.  The hook returns normally exactly on the accepted arguments: an
    object that is not callable (or no argument at all) whose
    [defaultOrientation] is missing, undefined, or one of the strings
    portrait and landscape, compared exactly.  On every other argument it
    throws and leaves the instance as it was; on an accepted one the
    result shows the state of the instance, or the accepted orientation
    when the instance has no state yet. *)
Theorem hook_returns_iff_accepted (arg : value) (c : Component) :
  (accepted arg = None -> exists e, hook arg c = (c, Throw e))
  /\ (forall d, accepted arg = Some d ->
                exists c' r, hook arg c = (c', Normal r)
                             /\ orientation r = match state c with
                                                | Some o => o
                                                | None => d
                                                end)
  /\ ((exists c' r, hook arg c = (c', Normal r)) <-> accepted arg <> None).
Proof.
  pose proof (validation_accepted arg) as Hv.
  rewrite useWindowOrientation_split.
  destruct (accepted arg) as [d|].
  - rewrite Hv.
    destruct (stateful_part_normal d c) as (c' & r & Heq & Ho & _).
    split; [discriminate|]. split.
    + intros d' [= <-]. now exists c', r.
    + split; [discriminate | intros _; now exists c', r].
  - destruct Hv as [e ->].
    split; [intros _; now exists e|]. split; [discriminate|].
    split; [intros (c' & r & [=]) | congruence].
Qed.

(** X2.  Once the instance has its state and its effect registered, a
    render with accepted options changes nothing in the instance and
    returns the orientation of the state: the [defaultOrientation] of a
    later render is ignored. *)
Theorem rerender_returns_state
    (arg : value) (d o : Orientation) (c : Component) :
  accepted arg = Some d ->
  state c = Some o ->
  effectStatus c <> NotScheduled ->
  hook arg c
  = (c, Normal (mkResults o (Orientation_eqb o Portrait) (Orientation_eqb o Landscape))).
Proof.
  intros Ha Hs He.
  pose proof (validation_accepted arg) as Hv. rewrite Ha in Hv.
  rewrite useWindowOrientation_split, Hv.
  unfold stateful_part, bind, useState, useEffect, ret. rewrite Hs.
  destruct (effectStatus c); congruence.
Qed.

End Renders.

(** ** Further properties of the running system *)

Lemma Orientation_eqb_refl (o : Orientation) : Orientation_eqb o o = true.
Proof. now destruct o. Qed.

Lemma Orientation_eqb_eq (a b : Orientation) : Orientation_eqb a b = true <-> a = b.
Proof. destruct a, b; cbn; split; congruence. Qed.

Lemma setOrientation_live (o : Orientation) (c : Component) :
  effectStatus c <> Unmounted -> state (setOrientation o c) = Some o.
Proof. unfold setOrientation. destruct (effectStatus c); cbn; congruence. Qed.

(** What a run of the callback, or none, leaves of an active instance in
    a window. *)
Lemma fire_outcome (s : System) (win : Window) (d' : Debounced) (fire : bool) :
  window s = Some win ->
  effectStatus (component s) <> Unmounted ->
  exists s', (if fire then recompute (with_handleResize (Some d') s)
              else (with_handleResize (Some d') s, None)) = (s', None)
             /\ window s' = Some win
             /\ effectStatus (component s') = effectStatus (component s)
             /\ handleResize (component s') = Some d'
             /\ state (component s')
                = (if fire then Some (measure (innerWidth win) (innerHeight win))
                   else state (component s)).
Proof.
  intros Hw Hu. destruct fire.
  - unfold recompute, measure. cbn [with_handleResize window]. rewrite Hw.
    destruct (innerWidth win <=? innerHeight win);
      (eexists; split; [reflexivity|]); cbn [window component];
      match goal with
      | |- context [setOrientation ?o ?c] =>
          destruct (setOrientation_frame o c) as (-> & -> & _);
          rewrite (setOrientation_live o c) by exact Hu
      end; cbn; auto.
  - eexists; split; [reflexivity|]. cbn. auto.
Qed.

Lemma debounced_no_fire (t : Z) (d : Debounced) :
  snd (debounced t d) = false ->
  timerId (fst (debounced t d)) <> None /\ lastArgs (fst (debounced t d)) = true.
Proof.
  unfold debounced; cbn. destruct (timerId d); cbn; [split; [discriminate | reflexivity]|].
  destruct (shouldInvoke d t); cbn; [discriminate|]. split; [discriminate | reflexivity].
Qed.

Lemma timerExpired_no_fire (t : Z) (d : Debounced) :
  snd (timerExpired t d) = false -> lastArgs d = true ->
  timerId (fst (timerExpired t d)) <> None /\ lastArgs (fst (timerExpired t d)) = true.
Proof.
  unfold timerExpired, trailingEdge, invokeFunc. intros Hf Ha. rewrite Ha in *.
  destruct (shouldInvoke d t); cbn in *; [discriminate|]. split; [discriminate | reflexivity].
Qed.

Lemma timerExpired_fired (t : Z) (d : Debounced) :
  snd (timerExpired t d) = true -> timerId (fst (timerExpired t d)) = None.
Proof.
  unfold timerExpired, trailingEdge, invokeFunc.
  destruct (shouldInvoke d t); [|discriminate]. now destruct (lastArgs d).
Qed.

Lemma in_sync_measured (s : System) (win : Window) :
  window s = Some win ->
  state (component s) = Some (measure (innerWidth win) (innerHeight win)) ->
  in_sync s = true.
Proof. unfold in_sync. intros -> ->. apply Orientation_eqb_refl. Qed.

Lemma waiting_handler (s : System) (d : Debounced) :
  handleResize (component s) = Some d ->
  timerId d <> None -> lastArgs d = true -> waiting s = true.
Proof.
  unfold waiting. intros -> Ht Ha. destruct (timerId d); [exact Ha | congruence].
Qed.

(** One event on an instance that follows its window. *)
Lemma step_following (s : System) (ev : Event) :
  following s -> not_unmount ev = true ->
  exists s', step s ev = (s', None) /\ following s'.
Proof.
  intros (Ha & Hl & Hh & Hsw) Hev.
  assert (Hlive : effectStatus (component s) <> Unmounted) by congruence.
  destruct (window s) as [win|] eqn:Ew; [|discriminate Hl].
  destruct (handleResize (component s)) as [d|] eqn:Ed; [clear Hh | congruence].
  assert (Hsame : following s) by (repeat split; cbn; rewrite ?Ew, ?Ed; auto; congruence).
  destruct ev as [t|w h t|t|]; cbn [step]; [| | |discriminate Hev].
  - rewrite Ha. now exists s.
  - rewrite Ew. cbn [window]. rewrite listening_resized, Hl.
    unfold call_handleResize. cbn [component]. rewrite Ed.
    destruct (debounced t d) as [d' fire] eqn:Edeb.
    destruct (fire_outcome (mkSystem (Some (mkWindow w h (resizeListeners win))) (component s))
                           _ d' fire eq_refl Hlive) as (s' & Hr & Hw' & He' & Hh' & Hst').
    exists s'. split; [exact Hr|].
    split; [cbn in He'; congruence|].
    split; [rewrite Hw'; now rewrite listening_resized|].
    split; [congruence|].
    destruct fire.
    + left. now apply (in_sync_measured s' _ Hw').
    + right. destruct (debounced_no_fire t d) as [Ht' Ha']; [now rewrite Edeb|].
      rewrite Edeb in Ht', Ha'. now apply (waiting_handler s' d').
  - rewrite Ed. destruct (timerId d) as [due|] eqn:Edue; [|now exists s].
    destruct (due <=? t); [|now exists s].
    destruct (timerExpired t d) as [d' fire] eqn:Eexp.
    destruct (fire_outcome s win d' fire Ew Hlive) as (s' & Hr & Hw' & He' & Hh' & Hst').
    exists s'. split; [exact Hr|].
    split; [congruence|]. split; [now rewrite Hw'|]. split; [congruence|].
    destruct fire.
    + left. now apply (in_sync_measured s' _ Hw').
    + destruct Hsw as [Hsync | Hwait].
      * left. unfold in_sync in *. rewrite Hw', Hst'. now rewrite Ew in Hsync.
      * right. unfold waiting in Hwait. rewrite Ed, Edue in Hwait.
        destruct (timerExpired_no_fire t d) as [Ht' Ha']; [now rewrite Eexp | exact Hwait |].
        rewrite Eexp in Ht', Ha'. now apply (waiting_handler s' d').
Qed.

Lemma run_following (evs : list Event) (s : System) :
  following s -> forallb not_unmount evs = true ->
  snd (run s evs) = [] /\ following (fst (run s evs)).
Proof.
  revert s. induction evs as [|ev evs IH]; intros s Hf Hall; [now cbn|].
  cbn [forallb] in Hall. apply andb_true_iff in Hall as [Hev Hall].
  destruct (step_following s ev Hf Hev) as (s' & Hs & Hf').
  destruct (run_cons s ev evs) as [-> ->]. rewrite Hs; cbn [fst snd]. now apply IH.
Qed.

(** The effect, run where there is a window. *)
Lemma effect_outcome (win : Window) (c : Component) (t : Z) :
  effectStatus c = Scheduled ->
  step (mkSystem (Some win) c) (Commit t)
  = (mkSystem (Some (addEventListener HandleResize win))
              (mkComponent (Some (measure (innerWidth win) (innerHeight win))) Active
                           (Some (mkDebounced false (Some t) t (Some (t + wait))))
                           (S (recomputeCalls c))),
     None).
Proof.
  intros Hs. cbn [step component]. rewrite Hs.
  unfold effect, call_handleResize, recompute, measure; cbn.
  destruct (innerWidth win <=? innerHeight win); cbn;
    unfold setOrientation, with_effectStatus; cbn; rewrite Hs; reflexivity.
Qed.

Lemma effect_following (win : Window) (c : Component) (t : Z) :
  effectStatus c = Scheduled ->
  following (fst (step (mkSystem (Some win) c) (Commit t))).
Proof.
  intros Hs. rewrite (effect_outcome win c t Hs). cbn [fst].
  split; [reflexivity|]. split; [apply listening_added|]. split; [discriminate|].
  left. unfold in_sync; cbn. unfold addEventListener.
  destruct (existsb _ _); cbn; apply Orientation_eqb_refl.
Qed.

Lemma timed_later (c now t : Z) (d : Debounced) :
  timed c now d -> now <= t -> timed c t d.
Proof.
  intros (Hc & Hle & Ht) Hnow. split; [exact Hc|]. split; [lia|].
  destruct (timerId d); lia.
Qed.

Lemma timed_debounced (c now t : Z) (d : Debounced) :
  timed c now d -> now <= t -> timed t t (fst (debounced t d)).
Proof.
  intros (Hc & Hle & Ht) Hnow. unfold debounced, leadingEdge, invokeFunc, timed.
  cbn [timerId].
  destruct (timerId d) as [due|]; cbn [fst lastCallTime timerId]; [repeat split; lia|].
  destruct (shouldInvoke d t); cbn [fst lastCallTime timerId]; repeat split; lia.
Qed.

Lemma timed_timerExpired (c now t : Z) (d : Debounced) :
  timed c now d -> now <= t -> timed c t (fst (timerExpired t d)).
Proof.
  intros (Hc & Hle & Ht) Hnow.
  unfold timerExpired, shouldInvoke, remainingWait, trailingEdge, invokeFunc, timed.
  rewrite Hc.
  assert (Hneg : (t - c <? 0) = false) by (apply Z.ltb_ge; lia).
  rewrite Hneg, orb_false_r.
  destruct (Z.leb_spec wait (t - c)).
  - destruct (lastArgs d); cbn [fst lastCallTime timerId]; repeat split; auto; lia.
  - cbn [fst lastCallTime timerId]. repeat split; auto; lia.
Qed.

(** Along a history whose times never go back, the handler's clock
    readings stay consistent with the last call. *)
Lemma run_timed (evs : list Event) :
  forall (s : System) (d : Debounced) (c now : Z),
    following s -> handleResize (component s) = Some d -> timed c now d ->
    chronological now evs = true -> forallb not_unmount evs = true ->
    exists d', handleResize (component (fst (run s evs))) = Some d'
               /\ timed (last_call c evs) (end_time now evs) d'.
Proof.
  induction evs as [|ev evs IH]; intros s d c now Hf Hd Ht Hch Hall;
    [now exists d|].
  cbn [forallb] in Hall. apply andb_true_iff in Hall as [Hev Hall].
  destruct (step_following s ev Hf Hev) as (s' & Hs & Hf').
  destruct (run_cons s ev evs) as [-> _]. rewrite Hs; cbn [fst].
  pose proof Hf as (Ha & Hl & _ & _).
  destruct ev as [t|w h t|t|]; cbn [chronological last_call end_time] in *;
    [| | |discriminate Hev];
    apply andb_true_iff in Hch as [Hle Hch]; apply Z.leb_le in Hle.
  - cbn [step] in Hs. rewrite Ha in Hs. injection Hs as <-.
    apply (IH s d c t); auto. now apply (timed_later c now).
  - destruct (step_resize_mounted s d w h t Hl Hd) as (s1 & Hs1 & _ & Hd1 & _).
    rewrite Hs in Hs1. injection Hs1 as <-.
    apply (IH s' (fst (debounced t d)) t t); auto. now apply (timed_debounced c now).
  - destruct (timerId d) as [due|] eqn:Edue.
    + destruct (Z.le_gt_cases due t) as [Hdue | Hearly].
      * destruct (step_timer_mounted s d t due Hl Hd Edue Hdue) as (s1 & Hs1 & _ & Hd1 & _).
        rewrite Hs in Hs1. injection Hs1 as <-.
        apply (IH s' (fst (timerExpired t d)) c t); auto.
        now apply (timed_timerExpired c now).
      * rewrite (step_timer_early s d t Hd) in Hs by (rewrite Edue; lia).
        injection Hs as <-.
        apply (IH s d c t); auto. now apply (timed_later c now).
    + rewrite (step_timer_early s d t Hd) in Hs by now rewrite Edue.
      injection Hs as <-.
      apply (IH s d c t); auto. now apply (timed_later c now).
Qed.

(** The state an activation in a window starts its history from. *)
Lemma activation_timed (win : Window) (c : Component) (t0 : Z) :
  effectStatus c = Scheduled ->
  following (fst (step (mkSystem (Some win) c) (Commit t0)))
  /\ snd (step (mkSystem (Some win) c) (Commit t0)) = None
  /\ exists d, handleResize (component (fst (step (mkSystem (Some win) c) (Commit t0))))
               = Some d
               /\ timed t0 t0 d.
Proof.
  intros Hs. split; [now apply effect_following|].
  rewrite (effect_outcome win c t0 Hs). split; [reflexivity|].
  eexists; split; [reflexivity|]. unfold timed; cbn. repeat split; lia.
Qed.

(** X4.  Run where there is a window, the effect raises nothing, runs
    the callback once, and leaves the state at the orientation measured
    from the window -- whatever [defaultOrientation] had put there --
    with the handler subscribed after the listeners already present and
    its timeout due 400 time units later. *)
Theorem activation_measures_at_once (win : Window) (c : Component) (t : Z) :
  effectStatus c = Scheduled ->
  snd (step (mkSystem (Some win) c) (Commit t)) = None
  /\ state (component (fst (step (mkSystem (Some win) c) (Commit t))))
     = Some (measure (innerWidth win) (innerHeight win))
  /\ effectStatus (component (fst (step (mkSystem (Some win) c) (Commit t)))) = Active
  /\ recomputeCalls (component (fst (step (mkSystem (Some win) c) (Commit t))))
     = S (recomputeCalls c)
  /\ handleResize (component (fst (step (mkSystem (Some win) c) (Commit t))))
     = Some (mkDebounced false (Some t) t (Some (t + 400)))
  /\ listeners (fst (step (mkSystem (Some win) c) (Commit t)))
     = (if existsb (Listener_eqb HandleResize) (resizeListeners win)
        then resizeListeners win
        else resizeListeners win ++ [HandleResize])%list.
Proof.
  intros Hs. rewrite (effect_outcome win c t Hs). cbn.
  repeat split. unfold addEventListener.
  now destruct (existsb (Listener_eqb HandleResize) (resizeListeners win)).
Qed.

(** X5.  After the effect has run in a window, and after any events
    short of deactivation, with whatever times: nothing was raised, and
    either the state shows the orientation of the window as it is now, or
    a timeout is pending with a call waiting for its trailing edge.  With
    no timeout pending the state is that of the window. *)
Theorem state_follows_window
    (win : Window) (c : Component) (t : Z) (evs : list Event) :
  effectStatus c = Scheduled ->
  forallb not_unmount evs = true ->
  snd (run (mkSystem (Some win) c) (Commit t :: evs)) = []
  /\ (in_sync (fst (run (mkSystem (Some win) c) (Commit t :: evs))) = true
      \/ waiting (fst (run (mkSystem (Some win) c) (Commit t :: evs))) = true)
  /\ (pending (fst (run (mkSystem (Some win) c) (Commit t :: evs))) = false ->
      in_sync (fst (run (mkSystem (Some win) c) (Commit t :: evs))) = true).
Proof.
  intros Hs Hall.
  destruct (activation_timed win c t Hs) as (Hf & He & _).
  destruct (run_cons (mkSystem (Some win) c) (Commit t) evs) as [-> ->]. rewrite He.
  destruct (run_following evs _ Hf Hall) as (Herr & (_ & _ & _ & Hsw)).
  split; [exact Herr|]. split; [exact Hsw|].
  intros Hp. destruct Hsw as [Hsync | Hwait]; [exact Hsync|].
  unfold pending in Hp. unfold waiting in Hwait.
  destruct (handleResize _) as [d|]; [|discriminate].
  destruct (timerId d); discriminate.
Qed.

(** X6.  Along a history whose times never go back, an expiry of the
    timeout that comes 400 time units or more after the last call of the
    handler (the last notification, or the effect's own call) leaves the
    state at the orientation of the window as it is and no timeout
    pending. *)
Theorem settles_after_wait
    (win : Window) (c : Component) (t0 : Z) (evs : list Event) (t : Z) :
  effectStatus c = Scheduled ->
  chronological t0 evs = true ->
  forallb not_unmount evs = true ->
  last_call t0 evs + 400 <= t ->
  snd (run (mkSystem (Some win) c) (Commit t0 :: evs ++ [TimerExpired t])) = []
  /\ in_sync (fst (run (mkSystem (Some win) c) (Commit t0 :: evs ++ [TimerExpired t])))
     = true
  /\ pending (fst (run (mkSystem (Some win) c) (Commit t0 :: evs ++ [TimerExpired t])))
     = false.
Proof.
  intros Hs Hch Hall Hlate.
  destruct (activation_timed win c t0 Hs) as (Hf & He & d0 & Hd0 & Ht0).
  destruct (run_cons (mkSystem (Some win) c) (Commit t0) (evs ++ [TimerExpired t]))
    as [-> ->]. rewrite He.
  set (s1 := fst (step (mkSystem (Some win) c) (Commit t0))) in *.
  destruct (run_app evs [TimerExpired t] s1) as [-> ->].
  destruct (run_following evs s1 Hf Hall) as (-> & Hf2).
  destruct (run_timed evs s1 d0 t0 t0 Hf Hd0 Ht0 Hch Hall) as (d & Hd & Hc & Hle & Hdue).
  set (s2 := fst (run s1 evs)) in *.
  destruct (run_cons s2 (TimerExpired t) []) as [-> ->]. cbn [run fst snd app].
  pose proof Hf2 as (Ha & Hl & _ & Hsw).
  destruct (step_following s2 (TimerExpired t) Hf2 eq_refl) as (s3 & Hstep & Hf3).
  rewrite Hstep. cbn [fst snd]. split; [reflexivity|].
  destruct (timerId d) as [due|] eqn:Edue.
  - assert (Hdue' : due <= t) by (unfold wait in Hdue; lia).
    destruct (step_timer_mounted s2 d t due Hl Hd Edue Hdue') as (s' & Hs' & _ & Hd' & _).
    rewrite Hstep in Hs'. injection Hs' as <-.
    assert (Hnone : timerId (fst (timerExpired t d)) = None).
    { unfold timerExpired, shouldInvoke, trailingEdge, invokeFunc. rewrite Hc.
      assert (Hw : (wait <=? t - last_call t0 evs) = true)
        by (apply Z.leb_le; unfold wait; lia).
      rewrite Hw. cbn. now destruct (lastArgs d). }
    destruct Hf3 as (_ & _ & _ & Hsw3).
    assert (Hp : pending s3 = false) by (unfold pending; now rewrite Hd', Hnone).
    split; [|exact Hp].
    destruct Hsw3 as [Hsync | Hwait]; [exact Hsync|].
    unfold waiting in Hwait. rewrite Hd', Hnone in Hwait. discriminate.
  - rewrite (step_timer_early s2 d t Hd) in Hstep by now rewrite Edue.
    injection Hstep as <-.
    assert (Hp : pending s2 = false) by (unfold pending; now rewrite Hd, Edue).
    split; [|exact Hp].
    destruct Hsw as [Hsync | Hwait]; [exact Hsync|].
    unfold waiting in Hwait. rewrite Hd, Edue in Hwait. discriminate.
Qed.

(** X7.  Along a history whose times never go back, a notification that
    arrives while no timeout is pending is acted on at once: right after
    it the state is the orientation of the new size. *)
Theorem quiet_notification_is_immediate
    (win : Window) (c : Component) (t0 : Z) (evs : list Event) (w h t : Z) :
  effectStatus c = Scheduled ->
  chronological t0 evs = true ->
  forallb not_unmount evs = true ->
  pending (fst (run (mkSystem (Some win) c) (Commit t0 :: evs))) = false ->
  end_time t0 evs <= t ->
  state (component
           (fst (run (mkSystem (Some win) c) (Commit t0 :: evs ++ [Resize w h t]))))
  = Some (measure w h).
Proof.
  intros Hs Hch Hall Hquiet Hlater.
  destruct (activation_timed win c t0 Hs) as (Hf & He & d0 & Hd0 & Ht0).
  destruct (run_cons (mkSystem (Some win) c) (Commit t0) (evs ++ [Resize w h t]))
    as [-> _].
  destruct (run_cons (mkSystem (Some win) c) (Commit t0) evs) as [Hrun _].
  rewrite Hrun in Hquiet. clear Hrun.
  set (s1 := fst (step (mkSystem (Some win) c) (Commit t0))) in *.
  destruct (run_app evs [Resize w h t] s1) as [-> _].
  destruct (run_following evs s1 Hf Hall) as (_ & Hf2).
  destruct (run_timed evs s1 d0 t0 t0 Hf Hd0 Ht0 Hch Hall) as (d & Hd & Hc & Hle & Hdue).
  set (s2 := fst (run s1 evs)) in *.
  destruct (run_cons s2 (Resize w h t) []) as [-> _]. cbn [run fst].
  unfold pending in Hquiet. rewrite Hd in Hquiet.
  destruct (timerId d) as [due|] eqn:Edue; [discriminate|].
  destruct Hf2 as (Ha & Hl & _ & _).
  cbn [step]. destruct (window s2) as [win2|] eqn:Ew; [|discriminate Hl].
  cbn [window]. rewrite listening_resized, Hl.
  unfold call_handleResize. cbn [component]. rewrite Hd.
  rewrite (debounced_not_pending t d Edue).
  assert (Hinv : shouldInvoke d t = true).
  { unfold shouldInvoke. rewrite Hc. apply orb_true_iff. left. apply Z.leb_le. lia. }
  rewrite Hinv.
  destruct (fire_outcome (mkSystem (Some (mkWindow w h (resizeListeners win2))) (component s2))
                         _ (mkDebounced false (Some t) t (Some (t + wait))) true eq_refl)
    as (s3 & Hr & _ & _ & _ & Hst); [cbn; congruence|].
  rewrite Hr. exact Hst.
Qed.

(** *** The listeners of other parties *)

Lemma filter_added (ls : list Listener) :
  existsb (Listener_eqb HandleResize) ls = false ->
  filter (fun l' => negb (Listener_eqb HandleResize l')) (ls ++ [HandleResize]) = ls.
Proof.
  induction ls as [|l ls IH]; [reflexivity|].
  destruct l as [|id]; [discriminate|].
  intros H. change (Foreign id :: filter (fun l' => negb (Listener_eqb HandleResize l'))
                                         (ls ++ [HandleResize]) = Foreign id :: ls).
  f_equal. apply IH. exact H.
Qed.

(** No event but the deactivation touches the list of listeners. *)
Lemma step_keeps_listeners (s : System) (ev : Event) :
  window s <> None ->
  effectStatus (component s) = Active \/ effectStatus (component s) = Unmounted ->
  not_unmount ev = true ->
  listeners (fst (step s ev)) = listeners s
  /\ effectStatus (component (fst (step s ev))) = effectStatus (component s)
  /\ window (fst (step s ev)) <> None.
Proof.
  intros Hw Hst Hev.
  assert (Ew : exists win, window s = Some win)
    by (destruct (window s) as [win|]; [now exists win | congruence]).
  destruct Ew as [win Ew].
  assert (Hstay : listeners s = listeners s
                  /\ effectStatus (component s) = effectStatus (component s)
                  /\ window s <> None) by auto.
  assert (Hresized : forall w h,
             listeners (mkSystem (Some (mkWindow w h (resizeListeners win))) (component s))
             = listeners s) by (intros w h; unfold listeners; now rewrite Ew).
  destruct ev as [t|w h t|t|]; cbn [step]; [| | |discriminate Hev].
  - destruct Hst as [He | He]; rewrite He; cbn [fst];
      (split; [reflexivity | split; [exact He | exact Hw]]).
  - rewrite Ew. cbn [window].
    destruct (listening _);
      [|cbn [fst component]; rewrite Hresized;
        split; [reflexivity | split; [reflexivity | discriminate]]].
    unfold call_handleResize. cbn [component].
    destruct (handleResize (component s)) as [d|];
      [|cbn [fst component]; rewrite Hresized;
        split; [reflexivity | split; [reflexivity | discriminate]]].
    destruct (debounced t d) as [d' fire].
    destruct (fire_frame (mkSystem (Some (mkWindow w h (resizeListeners win))) (component s))
                         _ d' fire eq_refl) as (s' & -> & Hw' & He' & _).
    cbn [fst]. rewrite <- (Hresized w h). unfold listeners at 1. rewrite Hw'.
    cbn in He'. split; [reflexivity | split; [exact He' | discriminate]].
  - destruct (handleResize (component s)) as [d|]; [|exact Hstay].
    destruct (timerId d) as [due|]; [|exact Hstay].
    destruct (due <=? t); [|exact Hstay].
    destruct (timerExpired t d) as [d' fire].
    destruct (fire_frame s win d' fire Ew) as (s' & -> & Hw' & He' & _).
    cbn [fst]. unfold listeners. rewrite Hw', Ew.
    split; [reflexivity | split; [exact He' | discriminate]].
Qed.

Lemma run_keeps_listeners (evs : list Event) (s : System) :
  window s <> None ->
  effectStatus (component s) = Active \/ effectStatus (component s) = Unmounted ->
  forallb not_unmount evs = true ->
  listeners (fst (run s evs)) = listeners s
  /\ effectStatus (component (fst (run s evs))) = effectStatus (component s)
  /\ window (fst (run s evs)) <> None.
Proof.
  revert s. induction evs as [|ev evs IH]; intros s Hw Hst Hall; [now cbn|].
  cbn [forallb] in Hall. apply andb_true_iff in Hall as [Hev Hall].
  destruct (step_keeps_listeners s ev Hw Hst Hev) as (Hl & He & Hw').
  destruct (run_cons s ev evs) as [-> _].
  destruct (IH (fst (step s ev)) Hw') as (Hl' & He' & Hw''); [congruence | exact Hall |].
  repeat split; congruence.
Qed.

(** X8.  In a window where the handler is not yet a listener, the
    subscription of the effect and the cleanup undo each other: while the
    instance is active the listeners are the ones found, in their order,
    followed by the handler, and after the deactivation they are the ones
    found. *)
Theorem subscription_round_trip
    (win : Window) (c : Component) (t : Z) (evs : list Event) :
  existsb (Listener_eqb HandleResize) (resizeListeners win) = false ->
  effectStatus c = Scheduled ->
  forallb not_unmount evs = true ->
  listeners (fst (run (mkSystem (Some win) c) (Commit t :: evs)))
  = (resizeListeners win ++ [HandleResize])%list
  /\ listeners (fst (run (mkSystem (Some win) c) (Commit t :: evs ++ [Unmount])))
     = resizeListeners win.
Proof.
  intros Habsent Hs Hall.
  assert (Hmid : forall s, s = fst (step (mkSystem (Some win) c) (Commit t)) ->
                           listeners (fst (run s evs))
                           = (resizeListeners win ++ [HandleResize])%list
                           /\ effectStatus (component (fst (run s evs))) = Active
                           /\ window (fst (run s evs)) <> None).
  { intros s ->. rewrite (effect_outcome win c t Hs). cbn [fst].
    match goal with |- context [run ?s0 evs] => set (s1 := s0) end.
    destruct (run_keeps_listeners evs s1) as (Hl & He & Hw);
      [discriminate | now left | exact Hall |].
    rewrite Hl, He. split; [|split; [reflexivity | exact Hw]].
    unfold s1, listeners, addEventListener; cbn. now rewrite Habsent. }
  destruct (run_cons (mkSystem (Some win) c) (Commit t) evs) as [-> _].
  destruct (run_cons (mkSystem (Some win) c) (Commit t) (evs ++ [Unmount])) as [-> _].
  destruct (Hmid _ eq_refl) as (Hl & He & Hw).
  split; [exact Hl|].
  destruct (run_app evs [Unmount] (fst (step (mkSystem (Some win) c) (Commit t))))
    as [-> _].
  set (s2 := fst (run (fst (step (mkSystem (Some win) c) (Commit t))) evs)) in *.
  destruct (run_cons s2 Unmount []) as [-> _]. cbn [run fst step].
  rewrite He. unfold cleanup.
  destruct (window s2) as [win2|] eqn:Ew; [|congruence].
  cbn. unfold listeners in Hl. rewrite Ew in Hl.
  unfold listeners; cbn. rewrite Hl. now apply filter_added.
Qed.

(** *** An effect that failed for want of a window *)

Lemma step_after_failure (s : System) (ev : Event) :
  window s = None ->
  effectStatus (component s) = Failed \/ effectStatus (component s) = Unmounted ->
  (forall d, handleResize (component s) = Some d -> lastArgs d = false) ->
  exists s', step s ev = (s', None)
             /\ window s' = None
             /\ (effectStatus (component s') = Failed
                 \/ effectStatus (component s') = Unmounted)
             /\ (forall d, handleResize (component s') = Some d -> lastArgs d = false)
             /\ state (component s') = state (component s)
             /\ recomputeCalls (component s') = recomputeCalls (component s).
Proof.
  intros Hw Hst Hd.
  destruct ev as [t|w h t|t|]; cbn [step].
  - destruct Hst as [He | He]; rewrite He; exists s; rewrite He; auto 10.
  - rewrite Hw. exists s. auto 10.
  - destruct (handleResize (component s)) as [d|] eqn:Ed; [|exists s; rewrite Ed; auto 10].
    destruct (timerId d) as [due|]; [|exists s; rewrite Ed; auto 10].
    destruct (due <=? t); [|exists s; rewrite Ed; auto 10].
    unfold timerExpired, trailingEdge. rewrite (Hd d eq_refl).
    destruct (shouldInvoke d t); (eexists; split; [reflexivity|]); cbn;
      (repeat split; auto; intros d0 [= <-]; cbn; auto).
  - destruct Hst as [He | He]; rewrite He; (eexists; split; [reflexivity|]); cbn; auto 10.
Qed.

Lemma run_after_failure (evs : list Event) (s : System) :
  window s = None ->
  effectStatus (component s) = Failed \/ effectStatus (component s) = Unmounted ->
  (forall d, handleResize (component s) = Some d -> lastArgs d = false) ->
  snd (run s evs) = []
  /\ state (component (fst (run s evs))) = state (component s)
  /\ recomputeCalls (component (fst (run s evs))) = recomputeCalls (component s).
Proof.
  revert s. induction evs as [|ev evs IH]; intros s Hw Hst Hd; [now cbn|].
  destruct (step_after_failure s ev Hw Hst Hd) as (s' & Hs & Hw' & Hst' & Hd' & Hs' & Hc').
  destruct (run_cons s ev evs) as [-> ->]. rewrite Hs; cbn [fst snd].
  destruct (IH s' Hw' Hst' Hd') as (He & Hs'' & Hc''). repeat split; congruence.
Qed.

(** X9.  Run where there is no window, the effect throws a
    ReferenceError out of its own call of the handler, before it could
    subscribe: the callback ran once without setting anything, and from
    then on no event raises an error, changes the state or runs the
    callback again -- the timeout that call had started expires without
    effect. *)
Theorem effect_failure_is_contained
    (c : Component) (t : Z) (evs : list Event) :
  effectStatus c = Scheduled ->
  snd (step (mkSystem None c) (Commit t)) = Some (ReferenceError "window")
  /\ effectStatus (component (fst (step (mkSystem None c) (Commit t)))) = Failed
  /\ snd (run (fst (step (mkSystem None c) (Commit t))) evs) = []
  /\ state (component (fst (run (fst (step (mkSystem None c) (Commit t))) evs))) = state c
  /\ recomputeCalls (component (fst (run (fst (step (mkSystem None c) (Commit t))) evs)))
     = S (recomputeCalls c).
Proof.
  intros Hs. cbn [step component]. rewrite Hs.
  unfold effect, call_handleResize, recompute; cbn.
  split; [reflexivity|]. split; [reflexivity|].
  match goal with |- context [run ?s0 evs] => set (s1 := s0) end.
  destruct (run_after_failure evs s1) as (He & Hst & Hc); cbn; auto.
  intros d [= <-]. reflexivity.
Qed.

(** ** The further properties at concrete inputs *)

Lemma rerender_returns_state_witness :
  (accepted (optionsWith (@JsString Z "landscape")) = Some Landscape
   /\ state (mkComponent (Some Portrait) Active (Some quiet_handler) 1) = Some Portrait
   /\ effectStatus (mkComponent (Some Portrait) Active (Some quiet_handler) 1)
      <> NotScheduled)
  /\ useWindowOrientation Z decimal (optionsWith (JsString "landscape"))
                          (mkComponent (Some Portrait) Active (Some quiet_handler) 1)
     = (mkComponent (Some Portrait) Active (Some quiet_handler) 1,
        Normal (mkResults Portrait true false)).
Proof.
  split; [split; [reflexivity | split; [reflexivity | discriminate]]|].
  apply (rerender_returns_state Z decimal (optionsWith (JsString "landscape"))
           Landscape Portrait (mkComponent (Some Portrait) Active (Some quiet_handler) 1)
           eq_refl eq_refl).
  discriminate.
Defined.

Lemma activation_measures_at_once_witness :
  effectStatus rendered = Scheduled
  /\ state (component (fst (step (mkSystem (Some shared_window) rendered) (Commit 0))))
     = Some Landscape
  /\ listeners (fst (step (mkSystem (Some shared_window) rendered) (Commit 0)))
     = [Foreign 1; Foreign 2; HandleResize].
Proof.
  split; [reflexivity|].
  destruct (activation_measures_at_once shared_window rendered 0 eq_refl)
    as (_ & Hstate & _ & _ & _ & Hlisteners).
  split; [exact Hstate | exact Hlisteners].
Defined.

Lemma state_follows_window_witness :
  (effectStatus rendered = Scheduled
   /\ forallb not_unmount [Resize 500 1000 100; Resize 1000 500 110; TimerExpired 400] = true)
  /\ (in_sync (fst (run (mkSystem (Some wide_window) rendered)
                        (Commit 0 :: [Resize 500 1000 100; Resize 1000 500 110;
                                      TimerExpired 400]))) = true
      \/ waiting (fst (run (mkSystem (Some wide_window) rendered)
                           (Commit 0 :: [Resize 500 1000 100; Resize 1000 500 110;
                                         TimerExpired 400]))) = true).
Proof.
  split; [split; reflexivity|].
  apply (state_follows_window wide_window rendered 0
           [Resize 500 1000 100; Resize 1000 500 110; TimerExpired 400] eq_refl eq_refl).
Defined.

Lemma settles_after_wait_witness :
  (effectStatus rendered = Scheduled
   /\ chronological 0 [Resize 500 1000 100; Resize 500 1000 110] = true
   /\ forallb not_unmount [Resize 500 1000 100; Resize 500 1000 110] = true
   /\ last_call 0 [Resize 500 1000 100; Resize 500 1000 110] + 400 <= 510)
  /\ in_sync (fst (run (mkSystem (Some wide_window) rendered)
                       (Commit 0 :: [Resize 500 1000 100; Resize 500 1000 110]
                                 ++ [TimerExpired 510]))) = true.
Proof.
  split; [repeat split; cbn; lia|].
  apply (settles_after_wait wide_window rendered 0
           [Resize 500 1000 100; Resize 500 1000 110] 510 eq_refl eq_refl eq_refl).
  cbn; lia.
Defined.

Lemma quiet_notification_is_immediate_witness :
  (effectStatus rendered = Scheduled
   /\ chronological 0 [TimerExpired 400] = true
   /\ forallb not_unmount [TimerExpired 400] = true
   /\ pending (fst (run (mkSystem (Some wide_window) rendered)
                        (Commit 0 :: [TimerExpired 400]))) = false
   /\ end_time 0 [TimerExpired 400] <= 1000)
  /\ state (component (fst (run (mkSystem (Some wide_window) rendered)
                                (Commit 0 :: [TimerExpired 400]
                                          ++ [Resize 500 1000 1000]))))
     = Some Portrait.
Proof.
  split; [repeat split; cbn; lia|].
  apply (quiet_notification_is_immediate wide_window rendered 0 [TimerExpired 400]
           500 1000 1000 eq_refl eq_refl eq_refl eq_refl).
  cbn; lia.
Defined.

Lemma subscription_round_trip_witness :
  (existsb (Listener_eqb HandleResize) (resizeListeners shared_window) = false
   /\ effectStatus rendered = Scheduled
   /\ forallb not_unmount [Resize 500 1000 100; TimerExpired 500] = true)
  /\ listeners (fst (run (mkSystem (Some shared_window) rendered)
                         (Commit 0 :: [Resize 500 1000 100; TimerExpired 500]
                                   ++ [Unmount])))
     = [Foreign 1; Foreign 2].
Proof.
  split; [repeat split|].
  apply (subscription_round_trip shared_window rendered 0
           [Resize 500 1000 100; TimerExpired 500] eq_refl eq_refl eq_refl).
Defined.

Lemma effect_failure_is_contained_witness :
  effectStatus rendered = Scheduled
  /\ state (component (fst (run (fst (step (mkSystem None rendered) (Commit 0)))
                                [TimerExpired 400; Resize 1 2 500; Unmount])))
     = state rendered.
Proof.
  split; [reflexivity|].
  apply (effect_failure_is_contained rendered 0
           [TimerExpired 400; Resize 1 2 500; Unmount] eq_refl).
Defined.
